(** * Airdrop CSV generator: a shallow embedding of
    [script/generate_airdrop_csv.py] and the properties of its
    specification.

    The script converts a list of (address, token amount) pairs into a CSV
    file of base-unit ("wei") amounts and prints a three-line summary.

    Modelling choices, following the Python source:
    - a Python number is an arbitrary-precision [int] ([Z]) or a [float]
      (IEEE-754 binary64, through the executable specification [SpecFloat]
      of the Standard Library);
    - a raised exception is an explicit outcome ([Raise]);
    - the interpreter is CPython 3 with its defaults; in particular
      turning an [int] of more than 4300 digits into text ([str], an
      f-string field, a cell of the CSV writer) raises [ValueError];
    - text is a [string] of bytes (the UTF-8 encoding of the Python string:
      every character the CSV writer treats specially is ASCII);
    - the file system is a finite map from file names to contents and the
      console is the list of printed lines; both are threaded through a
      small state-and-exception monad.  Opening a file for writing always
      succeeds in the model: failures of the operating system are outside
      of it;
    - a printed line is kept as the parts of its f-string: the literal
      text and the formatted fields.  The digits Python prints for a
      [float] field are the interpreter's (shortest round-trip) and are
      not computed here: such a field is recorded with its value. *)

From Stdlib Require Import ZArith Lia List Ascii String DecimalString SpecFloat.
From stdpp Require Import base gmap strings.

Local Open Scope string_scope.
Local Open Scope Z_scope.

(** ** Python numbers *)

Module Py.

(** binary64: 53 bits of precision, infinities at exponent 1024. *)
Definition prec : Z := 53.
Definition emax : Z := 1024.

Inductive exn : Type :=
  | OverflowError
  | ValueError.

Inductive result (A : Type) : Type :=
  | Ok (a : A)
  | Raise (e : exn).
Arguments Ok {A} a.
Arguments Raise {A} e.

(** The result of a computation passed through a function. *)
Definition map {A B : Type} (f : A -> B) (r : result A) : result B :=
  match r with
  | Ok a => Ok (f a)
  | Raise e => Raise e
  end.

Inductive num : Type :=
  | Int (z : Z)
  | Float (x : spec_float).

(** [float(i)] for an [int] operand mixed with a [float]: the nearest
    binary64 (ties to even); CPython raises [OverflowError] when the
    rounded value does not fit. *)
Definition float_of_int (z : Z) : result spec_float :=
  match binary_normalize prec emax z 0 false with
  | S754_infinity _ => Raise OverflowError
  | x => Ok x
  end.

(** [a * b] *)
Definition mul (a b : num) : result num :=
  match a, b with
  | Int x, Int y => Ok (Int (x * y))
  | Float x, Int y =>
      match float_of_int y with
      | Ok y' => Ok (Float (SFmul prec emax x y'))
      | Raise e => Raise e
      end
  | Int x, Float y =>
      match float_of_int x with
      | Ok x' => Ok (Float (SFmul prec emax x' y))
      | Raise e => Raise e
      end
  | Float x, Float y => Ok (Float (SFmul prec emax x y))
  end.

(** [a + b] *)
Definition add (a b : num) : result num :=
  match a, b with
  | Int x, Int y => Ok (Int (x + y))
  | Float x, Int y =>
      match float_of_int y with
      | Ok y' => Ok (Float (SFadd prec emax x y'))
      | Raise e => Raise e
      end
  | Int x, Float y =>
      match float_of_int x with
      | Ok x' => Ok (Float (SFadd prec emax x' y))
      | Raise e => Raise e
      end
  | Float x, Float y => Ok (Float (SFadd prec emax x y))
  end.

(** [int(a)]: the identity on an [int]; a [float] is truncated towards
    zero, [OverflowError] on an infinity and [ValueError] on a NaN. *)
Definition int (a : num) : result Z :=
  match a with
  | Int z => Ok z
  | Float (S754_zero _) => Ok 0
  | Float (S754_infinity _) => Raise OverflowError
  | Float S754_nan => Raise ValueError
  | Float (S754_finite s m e) =>
      let magnitude :=
        if 0 <=? e then Z.pos m * 2 ^ e else Z.pos m / 2 ^ (- e) in
      Ok (if s then - magnitude else magnitude)
  end.

(** [10 ** decimals] for a non-negative [int] exponent.  (A negative
    exponent would make Python return a [float] computed by the C library's
    [pow]; the specification restricts [decimals] to non-negative integers
    and the script only ever uses the default, so the exponent is typed
    [N].) *)
Definition pow10 (decimals : N) : num := Int (10 ^ Z.of_N decimals).

End Py.

(** ** [tokens_to_wei] *)

(** [return int(amount * (10 ** decimals))] *)
Definition tokens_to_wei (amount : Py.num) (decimals : N) : Py.result Z :=
  match Py.mul amount (Py.pow10 decimals) with
  | Py.Ok p => Py.int p
  | Py.Raise e => Py.Raise e
  end.

(** ** Text *)

Definition comma : ascii := ","%char.
Definition dquote : ascii := "034"%char.
Definition CR : ascii := "013"%char.
Definition LF : ascii := "010"%char.

Definition char (c : ascii) : string := String c "".

(** The decimal writing of an integer: its digits, [-] first when
    negative. *)
Definition digits (z : Z) : string := NilZero.string_of_int (Z.to_int z).

(** [sys.get_int_max_str_digits()], by default. *)
Definition int_max_str_digits : Z := 4300.

(** The least integer with more digits than the limit, [10^4300]. *)
Definition str_limit : Z := Eval vm_compute in 10 ^ int_max_str_digits.

(** The integers that have more digits than the limit. *)
Definition too_long (z : Z) : bool := str_limit <=? Z.abs z.

(** [str(i)] for an [int]: its decimal writing, [ValueError] when it has
    more than 4300 digits (the sign does not count). *)
Definition str (z : Z) : Py.result string :=
  if too_long z then Py.Raise Py.ValueError else Py.Ok (digits z).

(** The digit grouping of the format specification [,]: [ds] holds the
    digits from the least significant one, [k] counts the digits already
    emitted in the current group of three. *)
Fixpoint group_thousands (ds : list ascii) (k : nat) : list ascii :=
  match ds with
  | [] => []
  | d :: ds' =>
      match k with
      | 3%nat => comma :: d :: group_thousands ds' 1
      | _ => d :: group_thousands ds' (S k)
      end
  end.

(** The decimal writing with a comma between the groups of three
    digits. *)
Definition grouped (z : Z) : string :=
  let ds := list_ascii_of_string (digits (Z.abs z)) in
  let gs := rev (group_thousands (rev ds) 0) in
  (if z <? 0 then "-" else "") +:+ string_of_list_ascii gs.

(** [format(i, ',')] for an [int]: the conversion to decimal is under the
    same limit as [str]. *)
Definition format_int_comma (z : Z) : Py.result string :=
  if too_long z then Py.Raise Py.ValueError else Py.Ok (grouped z).

(** ** The CSV writer (module [csv], dialect [excel])

    [csv.writer(csvfile)] uses the default dialect: delimiter [,], the double
    quote as quote character, [doublequote], line terminator CR LF and
    [QUOTE_MINIMAL]: a field is quoted exactly when it contains the
    delimiter, the quote character or a character of the line
    terminator.  No escape character is set. *)

Module Csv.

Inductive cell : Type :=
  | Str (s : string)
  | Num (z : Z).

Definition lineterminator : string := String CR (String LF "").

Definition special (c : ascii) : bool :=
  Ascii.eqb c comma || Ascii.eqb c dquote || Ascii.eqb c CR || Ascii.eqb c LF.

Fixpoint needs_quoting (s : string) : bool :=
  match s with
  | EmptyString => false
  | String c s' => special c || needs_quoting s'
  end.

(** Every quote character of a quoted field is doubled. *)
Fixpoint double_quotes (s : string) : string :=
  match s with
  | EmptyString => EmptyString
  | String c s' =>
      if Ascii.eqb c dquote then String c (String c (double_quotes s'))
      else String c (double_quotes s')
  end.

Definition field (s : string) : string :=
  if needs_quoting s then char dquote +:+ double_quotes s +:+ char dquote
  else s.

(** A cell that is not a string is written as [str(cell)], which may
    raise. *)
Definition cell_text (c : cell) : Py.result string :=
  match c with
  | Str s => Py.Ok s
  | Num z => str z
  end.

(** The cells of a row are converted from the first one on. *)
Fixpoint cells_text (row : list cell) : Py.result (list string) :=
  match row with
  | [] => Py.Ok []
  | c :: row' =>
      match cell_text c with
      | Py.Raise e => Py.Raise e
      | Py.Ok s =>
          match cells_text row' with
          | Py.Raise e => Py.Raise e
          | Py.Ok ss => Py.Ok (s :: ss)
          end
      end
  end.

Fixpoint join (fields : list string) : string :=
  match fields with
  | [] => ""
  | [f] => f
  | f :: fs => f +:+ char comma +:+ join fs
  end.

(** The line for the given fields.  A row made of one empty field is
    written as a pair of quotes. *)
Definition line (fields : list string) : string :=
  let joined := join (map field fields) in
  (match fields, joined with
   | [_], EmptyString => char dquote +:+ char dquote
   | _, _ => joined
   end) +:+ lineterminator.

(** The text [writer.writerow(row)] hands to the file's [write]; when a
    cell raises, nothing is written for the row. *)
Definition row_text (row : list cell) : Py.result string :=
  Py.map line (cells_text row).

End Csv.

(** ** Files, console and the monad of the script *)

(** The parts of a printed f-string. *)
Inductive part : Type :=
  | Text (s : string)
  | FloatComma (x : spec_float).

Record world : Type := World {
  files : gmap string string;
  console : list (list part)
}.

Definition M (A : Type) : Type := world -> Py.result A * world.

Global Instance M_ret : MRet M := fun A a w => (Py.Ok a, w).

Global Instance M_bind : MBind M := fun A B k m w =>
  match m w with
  | (Py.Ok a, w') => k a w'
  | (Py.Raise e, w') => (Py.Raise e, w')
  end.

(** A pure computation that may raise. *)
Definition lift {A : Type} (r : Py.result A) : M A := fun w => (r, w).

(** [open(name, 'w', newline='')]: the file is created or truncated; the
    file object is represented by its name.  With [newline=''] the text
    written reaches the file unchanged. *)
Definition open_w (name : string) : M string := fun w =>
  (Py.Ok name, World (<[name := ""]> (files w)) (console w)).

(** [f.write(text)] appends to the file.  Leaving the [with] block closes
    (and flushes) the file on every exit path, so what was written before
    an exception is in the file. *)
Definition write (f : string) (text : string) : M unit := fun w =>
  (Py.Ok tt,
   World (<[f := default "" (files w !! f) +:+ text]> (files w)) (console w)).

Definition writerow (f : string) (row : list Csv.cell) : M unit :=
  text ← lift (Csv.row_text row);
  write f text.

(** [print(line)] *)
Definition print (line : list part) : M unit := fun w =>
  (Py.Ok tt, World (files w) (console w ++ [line])).

(** [for x in xs: body] *)
Fixpoint for_each {A : Type} (xs : list A) (body : A -> M unit) : M unit :=
  match xs with
  | [] => mret tt
  | x :: xs' => body x ;; for_each xs' body
  end.

(** [sum(xs)]: the items are added from the left, starting from [int] 0.
    (For [float] items this is the plain sum; the facts below that involve
    [float] totals only use lists whose partial sums are exact.) *)
Fixpoint sum_from (acc : Py.num) (xs : list Py.num) : Py.result Py.num :=
  match xs with
  | [] => Py.Ok acc
  | x :: xs' =>
      match Py.add acc x with
      | Py.Ok acc' => sum_from acc' xs'
      | Py.Raise e => Py.Raise e
      end
  end.

Definition sum (xs : list Py.num) : Py.result Py.num := sum_from (Py.Int 0) xs.

(** ** The script *)

Definition recipient : Type := string * Py.num.

(** The default of the keyword argument [decimals]. *)
Definition default_decimals : N := 18.

Definition output_file : string := "airdrop_distribution.csv".

Definition airdrop_data : list recipient :=
  [ ("0x742e8D0aED6e21E2F8daBF7c8D9b3D96aF61f5a4", Py.Int 1000);
    ("0x1234567890123456789012345678901234567890", Py.Int 500);
    ("0xabcdefabcdefabcdefabcdefabcdefabcdefabcd", Py.Int 750);
    ("0x9876543210987654321098765432109876543210", Py.Int 250);
    ("0xfedcba0987654321fedcba0987654321fedcba09", Py.Int 300) ].

(** The replacement field [{x:,}]. *)
Definition format_comma (x : Py.num) : Py.result part :=
  match x with
  | Py.Int z => Py.map Text (format_int_comma z)
  | Py.Float y => Py.Ok (FloatComma y)
  end.

(** [generate_csv()], with the module-level list it reads as an argument.
    The text of an f-string is built, which may raise, before it is
    printed. *)
Definition generate_csv (airdrop_data : list recipient) : M unit :=
  csvfile ← open_w output_file;
  writerow csvfile [Csv.Str "address"; Csv.Str "amount"];;
  for_each airdrop_data (fun '(address, token_amount) =>
    wei_amount ← lift (tokens_to_wei token_amount default_decimals);
    writerow csvfile [Csv.Str address; Csv.Num wei_amount]);;
  count ← lift (str (Z.of_nat (length airdrop_data)));
  print [Text "Generated airdrop_distribution.csv with "; Text count;
         Text " recipients"];;
  total_tokens ← lift (sum (map snd airdrop_data));
  total_wei ← lift (tokens_to_wei total_tokens default_decimals);
  human_total ← lift (format_comma total_tokens);
  print [Text "Total tokens to distribute: "; human_total; Text " AIV"];;
  wei_total ← lift (str total_wei);
  print [Text "Total wei amount: "; Text wei_total].

(** [if __name__ == "__main__": generate_csv()] *)
Definition main : M unit := generate_csv airdrop_data.


(** ** What a run writes and prints

    [outcome] describes a run of [generate_csv] independently of the world
    it starts from: how the run ends, the text of the output file and the
    lines printed.  [generate_csv_outcome] proves that the script does
    exactly this. *)

Definition header_text : string := Csv.line ["address"; "amount"].

(** The line of a data row whose amount has been turned into text. *)
Definition csv_row (address : string) (wei_amount : Z) : string :=
  Csv.line [address; digits wei_amount].

Fixpoint rows_text (rows : list (string * Z)) : string :=
  match rows with
  | [] => ""
  | (address, wei_amount) :: rows' =>
      csv_row address wei_amount +:+ rows_text rows'
  end.

(** The rows written before the first recipient for which the conversion
    of the amount, or the conversion of the result to text, raises; and
    that exception. *)
Fixpoint convert_rows (rs : list recipient) : list (string * Z) * option Py.exn :=
  match rs with
  | [] => ([], None)
  | (address, token_amount) :: rs' =>
      match tokens_to_wei token_amount default_decimals with
      | Py.Ok wei_amount =>
          match str wei_amount with
          | Py.Ok _ =>
              let '(rows, err) := convert_rows rs' in
              ((address, wei_amount) :: rows, err)
          | Py.Raise e => ([], Some e)
          end
      | Py.Raise e => ([], Some e)
      end
  end.

Definition count_line (count : string) : list part :=
  [Text "Generated airdrop_distribution.csv with "; Text count;
   Text " recipients"].

Definition total_tokens_line (human_total : part) : list part :=
  [Text "Total tokens to distribute: "; human_total; Text " AIV"].

Definition total_wei_line (wei_total : string) : list part :=
  [Text "Total wei amount: "; Text wei_total].

(** What is printed after the file is closed, and how that ends. *)
Definition summary (rs : list recipient) : Py.result unit * list (list part) :=
  match str (Z.of_nat (length rs)) with
  | Py.Raise e => (Py.Raise e, [])
  | Py.Ok count =>
  match sum (map snd rs) with
  | Py.Raise e => (Py.Raise e, [count_line count])
  | Py.Ok total_tokens =>
  match tokens_to_wei total_tokens default_decimals with
  | Py.Raise e => (Py.Raise e, [count_line count])
  | Py.Ok total_wei =>
  match format_comma total_tokens with
  | Py.Raise e => (Py.Raise e, [count_line count])
  | Py.Ok human_total =>
  match str total_wei with
  | Py.Raise e =>
      (Py.Raise e, [count_line count; total_tokens_line human_total])
  | Py.Ok wei_total =>
      (Py.Ok tt,
       [count_line count; total_tokens_line human_total;
        total_wei_line wei_total])
  end end end end end.

Definition outcome (rs : list recipient)
  : Py.result unit * string * list (list part) :=
  let '(rows, err) := convert_rows rs in
  let content := header_text +:+ rows_text rows in
  match err with
  | Some e => (Py.Raise e, content, [])
  | None => let '(res, printed) := summary rs in (res, content, printed)
  end.

(** The body of the [for] loop of [generate_csv]. *)
Definition row_body (csvfile : string) : recipient -> M unit :=
  fun '(address, token_amount) =>
    wei_amount ← lift (tokens_to_wei token_amount default_decimals);
    writerow csvfile [Csv.Str address; Csv.Num wei_amount].

(** ** Vocabulary of the properties *)

Definition empty_world : world := World ∅ [].

(** The content of the output file after a run from [w]. *)
Definition written (rs : list recipient) (w : world) : option string :=
  files (snd (generate_csv rs w)) !! output_file.

(** An integer that [str] turns into text: at most 4300 digits. *)
Definition printable (z : Z) : Prop := Z.abs z < str_limit.

(** The row of [r] is written, with the amount [wei]: the amount converts
    and the result can be turned into text. *)
Definition writes (r : recipient) (wei : Z) : Prop :=
  tokens_to_wei (snd r) default_decimals = Py.Ok wei /\ printable wei.

(** The row of an amount is not written, and [e] is raised: the amount
    does not convert, or the result has too many digits. *)
Definition fails (token_amount : Py.num) (e : Py.exn) : Prop :=
  tokens_to_wei token_amount default_decimals = Py.Raise e \/
  exists wei : Z,
    tokens_to_wei token_amount default_decimals = Py.Ok wei /\
    ~ printable wei /\ e = Py.ValueError.

(** Recipients whose amounts are all [int]s, as in [airdrop_data]. *)
Definition int_recipients (l : list (string * Z)) : list recipient :=
  map (fun '(address, a) => (address, Py.Int a)) l.

(** Their exact base-unit amounts. *)
Definition scaled_rows (l : list (string * Z)) : list (string * Z) :=
  map (fun '(address, a) => (address, a * 10 ^ Z.of_N default_decimals)) l.

Definition total (zs : list Z) : Z := fold_right Z.add 0 zs.

(** A list of integer amounts of which every number the run turns into
    text has at most 4300 digits: each base-unit amount, their total and
    the number of recipients. *)
Definition all_printable (l : list (string * Z)) : Prop :=
  Forall (fun row => printable (snd row)) (scaled_rows l) /\
  printable (total (map snd (scaled_rows l))) /\
  printable (Z.of_nat (length l)).

(** A field the writer copies unchanged. *)
Definition plain (s : string) : Prop := Csv.needs_quoting s = false.

Fixpoint count_char (c : ascii) (s : string) : nat :=
  match s with
  | EmptyString => 0
  | String x s' => (if Ascii.eqb x c then 1 else 0) + count_char c s'
  end.

(** The number of lines of a text: its line feeds (the writer ends every
    row with CR LF). *)
Definition line_count (s : string) : nat := count_char LF s.

(** A text made of the given lines, each ended by CR LF. *)
Fixpoint lines_text (lines : list string) : string :=
  match lines with
  | [] => ""
  | l :: lines' => l +:+ Csv.lineterminator +:+ lines_text lines'
  end.

(** The data line [<address>,<amount>]. *)
Definition data_line (row : string * Z) : string :=
  fst row +:+ char comma +:+ digits (snd row).

(** A decimal literal [m / 10^k] read as a [float].  The quotient is
    rounded once, so this is the nearest binary64 to the literal, when [m]
    and [10^k] are represented exactly ([|m| < 2^53] and [k <= 22]), and
    also when [k = 0]. *)
Definition float_of_decimal (m : Z) (k : N) : spec_float :=
  SFdiv Py.prec Py.emax
    (binary_normalize Py.prec Py.emax m 0 false)
    (binary_normalize Py.prec Py.emax (10 ^ Z.of_N k) 0 false).

(** The amounts of the specification's recipient records: an integer, or
    a decimal such as 0.1 ([Decimal 1 1]) and 0.5 ([Decimal 5 1]). *)
Inductive amount : Type :=
  | Integer (a : Z)
  | Decimal (m : Z) (k : N).

Definition py_amount (x : amount) : Py.num :=
  match x with
  | Integer a => Py.Int a
  | Decimal m k => Py.Float (float_of_decimal m k)
  end.

Definition py_recipients (l : list (string * amount)) : list recipient :=
  map (fun r => (fst r, py_amount (snd r))) l.

(** [wei] is [x * 10^18] with no rounding loss. *)
Definition exact_wei (x : amount) (wei : Z) : Prop :=
  match x with
  | Integer a => wei = a * 10 ^ Z.of_N default_decimals
  | Decimal m k => wei * 10 ^ Z.of_N k = m * 10 ^ Z.of_N default_decimals
  end.

(** Integers, and the decimals 0.1 and 0.5. *)
Definition integer_or_tenth_or_half (x : amount) : bool :=
  match x with
  | Integer _ => true
  | Decimal m k => (k =? 1)%N && ((m =? 1) || (m =? 5))
  end.

(** The base-unit total as [generate_csv] computes it after the loop: the
    amounts are summed, then the sum is converted. *)
Definition total_wei (rs : list recipient) : Py.result Z :=
  match sum (map snd rs) with
  | Py.Ok total_tokens => tokens_to_wei total_tokens default_decimals
  | Py.Raise e => Py.Raise e
  end.

(** A text without its commas. *)
Fixpoint strip_commas (s : string) : string :=
  match s with
  | EmptyString => EmptyString
  | String c s' =>
      if Ascii.eqb c comma then strip_commas s' else String c (strip_commas s')
  end.

(** Decides whether the row written for [x] holds [x * 10^18] exactly. *)
Definition scales_exactly (x : amount) : bool :=
  match tokens_to_wei (py_amount x) default_decimals, x with
  | Py.Ok wei, Integer a => wei =? a * 10 ^ Z.of_N default_decimals
  | Py.Ok wei, Decimal m k =>
      wei * 10 ^ Z.of_N k =? m * 10 ^ Z.of_N default_decimals
  | Py.Raise _, _ => false
  end.

Definition not_comma (c : ascii) : bool := negb (Ascii.eqb c comma).

(** The float 1.0. *)
Definition one_token : Py.num := Py.Float (float_of_decimal 1 0).

(** Decides whether one token, given as the float 1.0, converts to
    exactly [10^d]. *)
Definition one_token_exact (d : Z) : bool :=
  match tokens_to_wei one_token (Z.to_N d) with
  | Py.Ok wei => wei =? 10 ^ d
  | Py.Raise _ => false
  end.

(** Decides whether it converts to an integer other than [10^d]. *)
Definition one_token_rounded (d : Z) : bool :=
  match tokens_to_wei one_token (Z.to_N d) with
  | Py.Ok wei => negb (wei =? 10 ^ d)
  | Py.Raise _ => false
  end.


(** ** Lemmas on text *)

Lemma string_app_assoc (a b c : string) : (a +:+ b) +:+ c = a +:+ (b +:+ c).
Proof.
  induction a as [|x a IH]; [reflexivity |].
  change (String x ((a +:+ b) +:+ c) = String x (a +:+ (b +:+ c))).
  f_equal. exact IH.
Qed.

Lemma string_app_nil_r (a : string) : a +:+ "" = a.
Proof.
  induction a as [|x a IH]; [reflexivity |].
  change (String x (a +:+ "") = String x a). f_equal. exact IH.
Qed.

Lemma count_char_app (c : ascii) (a b : string) :
  count_char c (a +:+ b) = (count_char c a + count_char c b)%nat.
Proof.
  induction a as [|x a IH]; [reflexivity |].
  change (((if Ascii.eqb x c then 1 else 0) + count_char c (a +:+ b))%nat =
          ((if Ascii.eqb x c then 1 else 0) + count_char c a + count_char c b)%nat).
  rewrite IH. lia.
Qed.

Lemma plain_no_LF (s : string) : plain s -> count_char LF s = 0%nat.
Proof.
  unfold plain. induction s as [|x s IH]; [reflexivity |].
  cbn [Csv.needs_quoting count_char]. intros H.
  apply orb_false_iff in H as [Hx Hs].
  unfold Csv.special in Hx.
  apply orb_false_iff in Hx as [_ Hx]. rewrite Hx, (IH Hs). reflexivity.
Qed.

Lemma plain_app (a b : string) : plain a -> plain b -> plain (a +:+ b).
Proof.
  unfold plain. induction a as [|x a IH]; intros Ha Hb; [exact Hb |].
  cbn [Csv.needs_quoting] in Ha. apply orb_false_iff in Ha as [Hx Ha].
  change (Csv.special x || Csv.needs_quoting (a +:+ b) = false).
  rewrite Hx, (IH Ha Hb). reflexivity.
Qed.

Lemma plain_uint (d : Decimal.uint) : plain (NilEmpty.string_of_uint d).
Proof. unfold plain. induction d; cbn; auto. Qed.

Lemma plain_nilzero (d : Decimal.uint) : plain (NilZero.string_of_uint d).
Proof. destruct d; first [reflexivity | exact (plain_uint _)]. Qed.

Lemma plain_digits (z : Z) : plain (digits z).
Proof.
  unfold digits, NilZero.string_of_int.
  destruct (Z.to_int z) as [d|d]; [apply plain_nilzero |].
  change (plain ("-" +:+ NilZero.string_of_uint d)).
  apply plain_app; [reflexivity | apply plain_nilzero].
Qed.

Lemma field_plain (s : string) : plain s -> Csv.field s = s.
Proof. unfold plain, Csv.field. intros ->. reflexivity. Qed.

(** A data row whose address needs no quoting is [<address>,<amount>]
    followed by CR LF. *)
Lemma csv_row_plain (address : string) (wei : Z) :
  plain address ->
  csv_row address wei = data_line (address, wei) +:+ Csv.lineterminator.
Proof.
  intros H. unfold csv_row, Csv.line, data_line.
  cbn [map Csv.join fst snd].
  rewrite (field_plain _ H), (field_plain _ (plain_digits wei)).
  rewrite !string_app_assoc. reflexivity.
Qed.

Lemma header_text_line : header_text = "address,amount" +:+ Csv.lineterminator.
Proof. reflexivity. Qed.

Lemma rows_text_plain (rows : list (string * Z)) :
  Forall (fun row => plain (fst row)) rows ->
  rows_text rows = lines_text (map data_line rows).
Proof.
  induction 1 as [|[address wei] rows Hp _ IH]; [reflexivity |].
  cbn [rows_text map lines_text]. rewrite (csv_row_plain _ _ Hp), IH.
  rewrite string_app_assoc. reflexivity.
Qed.

Lemma rows_text_app (r1 r2 : list (string * Z)) :
  rows_text (r1 ++ r2)%list = rows_text r1 +:+ rows_text r2.
Proof.
  induction r1 as [|[address wei] r1 IH]; [reflexivity |].
  cbn [app rows_text]. rewrite IH, string_app_assoc. reflexivity.
Qed.

Lemma line_count_lines (lines : list string) :
  Forall (fun l => line_count l = 0%nat) lines ->
  line_count (lines_text lines) = length lines.
Proof.
  unfold line_count. induction 1 as [|l lines Hl _ IH]; [reflexivity |].
  cbn [lines_text length]. rewrite !count_char_app, IH, Hl. reflexivity.
Qed.

Lemma data_line_no_LF (row : string * Z) :
  plain (fst row) -> line_count (data_line row) = 0%nat.
Proof.
  intros H. unfold line_count, data_line.
  rewrite !count_char_app, (plain_no_LF _ H), (plain_no_LF _ (plain_digits _)).
  reflexivity.
Qed.

(** ** [str] and the limit on digits *)

Lemma str_printable (z : Z) : printable z -> str z = Py.Ok (digits z).
Proof.
  unfold printable, str, too_long. intros H.
  replace (str_limit <=? Z.abs z) with false; [reflexivity |].
  symmetry. apply Z.leb_gt, H.
Qed.

Lemma str_ok_inv (z : Z) (s : string) :
  str z = Py.Ok s -> s = digits z /\ printable z.
Proof.
  unfold printable, str, too_long.
  destruct (str_limit <=? Z.abs z) eqn:H; [discriminate |].
  intros [= <-]. split; [reflexivity | apply Z.leb_gt, H].
Qed.

Lemma str_raise_inv (z : Z) (e : Py.exn) :
  str z = Py.Raise e -> e = Py.ValueError /\ ~ printable z.
Proof.
  unfold printable, str, too_long.
  destruct (str_limit <=? Z.abs z) eqn:H; [| discriminate].
  intros [= <-]. split; [reflexivity |]. apply Z.leb_le in H. lia.
Qed.

Lemma str_not_printable (z : Z) : ~ printable z -> str z = Py.Raise Py.ValueError.
Proof.
  unfold printable, str, too_long. intros H.
  replace (str_limit <=? Z.abs z) with true; [reflexivity |].
  symmetry. apply Z.leb_le. lia.
Qed.

Lemma format_int_comma_printable (z : Z) :
  printable z -> format_int_comma z = Py.Ok (grouped z).
Proof.
  unfold printable, format_int_comma, too_long. intros H.
  replace (str_limit <=? Z.abs z) with false; [reflexivity |].
  symmetry. apply Z.leb_gt, H.
Qed.

(** ** [tokens_to_wei] on integers *)

Lemma tokens_to_wei_int (a : Z) (d : N) :
  tokens_to_wei (Py.Int a) d = Py.Ok (a * 10 ^ Z.of_N d).
Proof. reflexivity. Qed.

(** ** The loop and the script against [outcome] *)

Lemma world_eta (w : world) : World (files w) (console w) = w.
Proof. now destruct w. Qed.

Lemma row_text_data (address : string) (wei : Z) :
  Csv.row_text [Csv.Str address; Csv.Num wei] =
  Py.map (fun _ => csv_row address wei) (str wei).
Proof.
  unfold Csv.row_text. cbn [Csv.cells_text Csv.cell_text].
  destruct (str wei) as [s|e] eqn:H; [| reflexivity].
  apply str_ok_inv in H as [-> _]. reflexivity.
Qed.

Lemma for_each_rows (rs : list recipient) :
  forall (w : world) (c : string),
    files w !! output_file = Some c ->
    for_each rs (row_body output_file) w =
      (match snd (convert_rows rs) with
       | Some e => Py.Raise e
       | None => Py.Ok tt
       end,
       World (<[output_file := c +:+ rows_text (fst (convert_rows rs))]> (files w))
             (console w)).
Proof.
  induction rs as [|[address token_amount] rs IH]; intros w c Hc.
  - simpl. rewrite string_app_nil_r, (insert_id _ _ _ Hc), world_eta.
    reflexivity.
  - cbn [for_each convert_rows row_body].
    unfold mbind at 1, M_bind at 1. unfold mbind at 1, M_bind at 1.
    unfold lift at 1.
    destruct (tokens_to_wei token_amount default_decimals) as [wei|e];
      cbn [fst snd rows_text].
    + unfold writerow, mbind at 1, M_bind at 1, lift at 1.
      rewrite row_text_data.
      destruct (str wei) as [s|e]; cbn [Py.map fst snd rows_text].
      * unfold write at 1. rewrite Hc. cbn [default].
        rewrite (IH _ (c +:+ csv_row address wei)); cbn [files console].
        -- destruct (convert_rows rs) as [rows err]; cbn [fst snd rows_text].
           rewrite insert_insert_eq, string_app_assoc. reflexivity.
        -- apply lookup_insert_eq.
      * rewrite string_app_nil_r, (insert_id _ _ _ Hc), world_eta.
        reflexivity.
    + rewrite string_app_nil_r, (insert_id _ _ _ Hc), world_eta.
      reflexivity.
Qed.

Lemma generate_csv_outcome (rs : list recipient) (w : world) :
  generate_csv rs w =
    (fst (fst (outcome rs)),
     World (<[output_file := snd (fst (outcome rs))]> (files w))
           (console w ++ snd (outcome rs))).
Proof.
  unfold generate_csv.
  unfold mbind at 1, M_bind at 1, open_w at 1.
  unfold mbind at 1, M_bind at 1, writerow at 1.
  unfold mbind at 1, M_bind at 1, lift at 1.
  change (Csv.row_text [Csv.Str "address"; Csv.Str "amount"])
    with (Py.Ok header_text).
  unfold write at 1. cbn [files console].
  rewrite lookup_insert_eq, insert_insert_eq.
  change (default "" (Some "") +:+ header_text) with header_text.
  unfold mbind at 1, M_bind at 1.
  change (fun '(address, token_amount) =>
            wei_amount ← lift (tokens_to_wei token_amount default_decimals);
            writerow output_file [Csv.Str address; Csv.Num wei_amount])
    with (row_body output_file).
  rewrite (for_each_rows rs _ header_text) by apply lookup_insert_eq.
  cbn [files console]. rewrite insert_insert_eq.
  unfold outcome, summary.
  destruct (convert_rows rs) as [rows [e|]]; cbn [fst snd].
  - rewrite app_nil_r. reflexivity.
  - unfold mbind, M_bind, print, lift; cbn [files console].
    destruct (str (Z.of_nat (length rs))) as [count|e]; cbn [fst snd];
      [| rewrite app_nil_r; reflexivity].
    destruct (sum (map snd rs)) as [total_tokens|e]; cbn [fst snd];
      [| reflexivity].
    destruct (tokens_to_wei total_tokens default_decimals) as [total_wei|e];
      cbn [fst snd files console]; [| reflexivity].
    destruct (format_comma total_tokens) as [human_total|e];
      cbn [fst snd files console]; [| reflexivity].
    destruct (str total_wei) as [wei_total|e]; cbn [fst snd files console];
      rewrite <- !app_assoc; reflexivity.
Qed.

(** Rewrites a run into its [outcome] and reads the output file. *)
Ltac by_outcome :=
  unfold written; rewrite ?generate_csv_outcome; cbn [fst snd files console];
  rewrite ?lookup_insert_eq.

(** Splits a conjunction of closed facts and evaluates each of them. *)
Ltac split_conj := repeat match goal with |- _ /\ _ => split end.
Ltac by_evaluation :=
  cbv zeta; split_conj;
  first [vm_compute; reflexivity | vm_compute; discriminate].

(** ** Lemmas on the rows written *)

Lemma outcome_content (rs : list recipient) :
  snd (fst (outcome rs)) = header_text +:+ rows_text (fst (convert_rows rs)).
Proof.
  unfold outcome. destruct (convert_rows rs) as [rows [e|]]; cbn [fst snd]; [reflexivity |].
  destruct (summary rs). reflexivity.
Qed.

Lemma outcome_result_ok (rs : list recipient) :
  fst (fst (outcome rs)) = Py.Ok tt -> snd (convert_rows rs) = None.
Proof.
  unfold outcome. destruct (convert_rows rs) as [rows [e|]]; cbn; [discriminate | reflexivity].
Qed.

Lemma convert_rows_lookup (rs : list recipient) :
  forall (i : nat) (address : string) (wei : Z),
    fst (convert_rows rs) !! i = Some (address, wei) ->
    exists token_amount,
      rs !! i = Some (address, token_amount) /\
      tokens_to_wei token_amount default_decimals = Py.Ok wei.
Proof.
  induction rs as [|[a t] rs IH]; intros i address wei; cbn [convert_rows].
  - intros H. discriminate H.
  - destruct (tokens_to_wei t default_decimals) as [w|e] eqn:Hw;
      [| intros H; discriminate H].
    destruct (str w) as [s|e]; [| intros H; discriminate H].
    destruct (convert_rows rs) as [rows err]. cbn [fst] in *.
    destruct i as [|i]; cbn.
    + intros [= <- <-]. exists t. split; [reflexivity | exact Hw].
    + apply IH.
Qed.

Lemma convert_rows_all (rs : list recipient) :
  snd (convert_rows rs) = None ->
  length (fst (convert_rows rs)) = length rs.
Proof.
  induction rs as [|[a t] rs IH]; cbn [convert_rows]; [reflexivity |].
  destruct (tokens_to_wei t default_decimals) as [w|e];
    [| intros H; discriminate H].
  destruct (str w) as [s|e]; [| intros H; discriminate H].
  destruct (convert_rows rs) as [rows err]. cbn [fst snd length] in *.
  intros H. now rewrite (IH H).
Qed.

Lemma convert_rows_writes (rs : list recipient) (weis : list Z) :
  Forall2 writes rs weis ->
  convert_rows rs = (zip (map fst rs) weis, None).
Proof.
  induction 1 as [|[a t] wei rs weis [Hw Hp] _ IH]; [reflexivity |].
  cbn [convert_rows map zip zip_with fst snd] in *.
  rewrite Hw, (str_printable _ Hp), IH. reflexivity.
Qed.

Lemma convert_rows_app (rs1 rs2 : list recipient) (weis1 : list Z) :
  Forall2 writes rs1 weis1 ->
  convert_rows (rs1 ++ rs2)%list =
    ((zip (map fst rs1) weis1 ++ fst (convert_rows rs2))%list,
     snd (convert_rows rs2)).
Proof.
  induction 1 as [|[a t] wei rs1 weis1 [Hw Hp] _ IH].
  - cbn [app map zip zip_with]. now destruct (convert_rows rs2).
  - cbn [app convert_rows map zip zip_with fst snd] in *.
    rewrite Hw, (str_printable _ Hp), IH. reflexivity.
Qed.

Lemma convert_rows_fails (address : string) (t : Py.num) (e : Py.exn)
    (rs : list recipient) :
  fails t e -> convert_rows ((address, t) :: rs) = ([], Some e).
Proof.
  intros [H | [wei [H [Hn ->]]]]; cbn [convert_rows]; rewrite H;
    [reflexivity |].
  rewrite (str_not_printable _ Hn). reflexivity.
Qed.

(** ** Lemmas on integer amounts *)

Lemma sum_from_int (zs : list Z) :
  forall acc, sum_from (Py.Int acc) (map Py.Int zs) = Py.Ok (Py.Int (acc + total zs)).
Proof.
  induction zs as [|z zs IH]; intros acc; cbn [map sum_from total fold_right].
  - now rewrite Z.add_0_r.
  - cbn [Py.add]. rewrite IH. fold (total zs). now rewrite Z.add_assoc.
Qed.

Lemma sum_int_recipients (l : list (string * Z)) :
  sum (map snd (int_recipients l)) = Py.Ok (Py.Int (total (map snd l))).
Proof.
  unfold sum, int_recipients. rewrite map_map.
  replace (map (fun x => snd (let '(address, a) := x in (address, Py.Int a))) l)
    with (map Py.Int (map snd l)).
  - apply sum_from_int.
  - rewrite map_map. apply map_ext. now intros [address a].
Qed.

Lemma total_scaled (l : list (string * Z)) :
  total (map snd (scaled_rows l)) =
  total (map snd l) * 10 ^ Z.of_N default_decimals.
Proof.
  induction l as [|[address a] l IH]; [reflexivity |].
  cbn [scaled_rows map total fold_right snd].
  fold (scaled_rows l). fold (total (map snd (scaled_rows l))).
  fold (total (map snd l)). rewrite IH. ring.
Qed.

(** The rows written for integer amounts hold the exact amounts. *)
Lemma convert_rows_int_prefix (l : list (string * Z)) :
  exists n : nat,
    fst (convert_rows (int_recipients l)) = firstn n (scaled_rows l) /\
    (snd (convert_rows (int_recipients l)) = None -> (length l <= n)%nat).
Proof.
  induction l as [|[address a] l [n [Hn Hall]]].
  - exists 0%nat. split; [reflexivity | intros _; cbn; lia].
  - cbn [int_recipients scaled_rows map convert_rows].
    rewrite tokens_to_wei_int.
    fold (int_recipients l). fold (scaled_rows l).
    destruct (str (a * 10 ^ Z.of_N default_decimals)) as [s|e].
    + exists (S n). destruct (convert_rows (int_recipients l)) as [rows err].
      cbn [fst snd firstn length] in *. split; [now rewrite Hn |].
      intros H. specialize (Hall H). lia.
    + exists 0%nat. split; [reflexivity | intros H; discriminate H].
Qed.

Lemma convert_rows_int_all (l : list (string * Z)) :
  snd (convert_rows (int_recipients l)) = None ->
  fst (convert_rows (int_recipients l)) = scaled_rows l.
Proof.
  intros H. destruct (convert_rows_int_prefix l) as [n [Hn Hall]].
  rewrite Hn. apply firstn_all2. unfold scaled_rows. rewrite length_map.
  apply Hall, H.
Qed.

Lemma convert_rows_int (l : list (string * Z)) :
  Forall (fun row => printable (snd row)) (scaled_rows l) ->
  convert_rows (int_recipients l) = (scaled_rows l, None).
Proof.
  induction l as [|[address a] l IH]; [reflexivity |].
  cbn [int_recipients scaled_rows map convert_rows].
  fold (int_recipients l). fold (scaled_rows l).
  intros H. inversion H as [|row rows Hp Hrest]; subst. cbn [snd] in Hp.
  rewrite tokens_to_wei_int.
  rewrite (str_printable (a * 10 ^ Z.of_N default_decimals) Hp), (IH Hrest).
  reflexivity.
Qed.

Lemma printable_total_tokens (l : list (string * Z)) :
  printable (total (map snd (scaled_rows l))) ->
  printable (total (map snd l)).
Proof.
  unfold printable. rewrite total_scaled, Z.abs_mul. intros H.
  eapply Z.le_lt_trans; [| exact H].
  rewrite <- (Z.mul_1_r (Z.abs (total (map snd l)))) at 1.
  apply Z.mul_le_mono_nonneg_l; [apply Z.abs_nonneg |].
  rewrite Z.abs_eq by (apply Z.pow_nonneg; lia).
  assert (0 < 10 ^ Z.of_N default_decimals) by (apply Z.pow_pos_nonneg; lia).
  lia.
Qed.

(** A run on integer amounts that are all printable. *)
Lemma outcome_int (l : list (string * Z)) :
  all_printable l ->
  outcome (int_recipients l) =
    (Py.Ok tt, header_text +:+ rows_text (scaled_rows l),
     [count_line (digits (Z.of_nat (length l)));
      total_tokens_line (Text (grouped (total (map snd l))));
      total_wei_line (digits (total (map snd (scaled_rows l))))]).
Proof.
  intros (Hrows & Htotal & Hcount). unfold outcome, summary.
  rewrite (convert_rows_int _ Hrows), sum_int_recipients, tokens_to_wei_int.
  unfold int_recipients at 1. rewrite length_map, (str_printable _ Hcount).
  cbn [format_comma].
  rewrite (format_int_comma_printable _ (printable_total_tokens _ Htotal)).
  cbn [Py.map]. rewrite <- total_scaled, (str_printable _ Htotal). reflexivity.
Qed.

(** A run that returns normally: every step succeeded. *)
Lemma outcome_ok_inv (rs : list recipient) :
  fst (fst (outcome rs)) = Py.Ok tt ->
  exists (total_tokens : Py.num) (total_wei : Z) (human_total : part),
    snd (convert_rows rs) = None /\
    printable (Z.of_nat (length rs)) /\
    sum (map snd rs) = Py.Ok total_tokens /\
    tokens_to_wei total_tokens default_decimals = Py.Ok total_wei /\
    format_comma total_tokens = Py.Ok human_total /\
    printable total_wei /\
    outcome rs =
      (Py.Ok tt, header_text +:+ rows_text (fst (convert_rows rs)),
       [count_line (digits (Z.of_nat (length rs)));
        total_tokens_line human_total;
        total_wei_line (digits total_wei)]).
Proof.
  unfold outcome, summary.
  destruct (convert_rows rs) as [rows [e|]]; cbn [fst snd]; [discriminate |].
  destruct (str (Z.of_nat (length rs))) as [count|e] eqn:Hcount;
    cbn [fst snd]; [| discriminate].
  destruct (sum (map snd rs)) as [t|e]; cbn [fst snd]; [| discriminate].
  destruct (tokens_to_wei t default_decimals) as [tw|e] eqn:Htw; cbn [fst snd];
    [| discriminate].
  destruct (format_comma t) as [h|e] eqn:Hh; cbn [fst snd]; [| discriminate].
  destruct (str tw) as [wt|e] eqn:Hwt; cbn [fst snd]; [| discriminate].
  intros _. apply str_ok_inv in Hcount as [-> Hc].
  apply str_ok_inv in Hwt as [-> Hw].
  exists t, tw, h. repeat split; first [assumption | reflexivity].
Qed.

(** ** Amounts that scale exactly *)

Lemma tokens_to_wei_exact_amount (x : amount) :
  integer_or_tenth_or_half x = true ->
  exists wei : Z,
    tokens_to_wei (py_amount x) default_decimals = Py.Ok wei /\ exact_wei x wei.
Proof.
  destruct x as [a | m k]; cbn [integer_or_tenth_or_half].
  - intros _. exists (a * 10 ^ Z.of_N default_decimals).
    split; [apply tokens_to_wei_int | reflexivity].
  - intros H. apply andb_true_iff in H as [Hk Hm].
    apply N.eqb_eq in Hk. subst k.
    apply orb_true_iff in Hm as [Hm | Hm]; apply Z.eqb_eq in Hm; subst m.
    + exists 100000000000000000. split; vm_compute; reflexivity.
    + exists 500000000000000000. split; vm_compute; reflexivity.
Qed.

(** ** Properties of the specification *)

(** C1: for every non-negative integer amount [a] and every non-negative
    integer [d], [tokens_to_wei(a, d)] returns exactly the integer
    [a * 10^d]. *)
Theorem tokens_to_wei_exact (a : Z) (d : N) :
  0 <= a ->
  tokens_to_wei (Py.Int a) d = Py.Ok (a * 10 ^ Z.of_N d).
Proof.
  intros _. unfold tokens_to_wei, Py.pow10.
  cbn [Py.mul Py.int]. reflexivity.
Qed.

Lemma tokens_to_wei_exact_witness :
  0 <= 1000 /\ tokens_to_wei (Py.Int 1000) 18 = Py.Ok (1000 * 10 ^ Z.of_N 18).
Proof. split; [lia | apply (tokens_to_wei_exact 1000 18); lia]. Defined.

(** C8: [tokens_to_wei] is additive over non-negative integer amounts:
    the conversion of [a + b] is the sum of the conversions of [a] and of
    [b], for every non-negative integer [decimals]. *)
Theorem tokens_to_wei_additive (a b : Z) (d : N) :
  0 <= a -> 0 <= b ->
  exists wa wb : Z,
    tokens_to_wei (Py.Int a) d = Py.Ok wa /\
    tokens_to_wei (Py.Int b) d = Py.Ok wb /\
    tokens_to_wei (Py.Int (a + b)) d = Py.Ok (wa + wb).
Proof.
  intros _ _. exists (a * 10 ^ Z.of_N d), (b * 10 ^ Z.of_N d).
  rewrite !tokens_to_wei_int. repeat split. f_equal. ring.
Qed.

Lemma tokens_to_wei_additive_witness :
  0 <= 1000 /\ 0 <= 500 /\
  exists wa wb : Z,
    tokens_to_wei (Py.Int 1000) 18 = Py.Ok wa /\
    tokens_to_wei (Py.Int 500) 18 = Py.Ok wb /\
    tokens_to_wei (Py.Int (1000 + 500)) 18 = Py.Ok (wa + wb).
Proof.
  split; [lia |]. split; [lia |].
  apply (tokens_to_wei_additive 1000 500 18); lia.
Defined.

(** C4: for the input [(addrA, 1000), (addrB, 500)] (18 decimals) the run
    succeeds, the file holds the header and the rows
    [addrA,1000000000000000000000] and [addrB,500000000000000000000], the
    human-readable total is printed as [1,500] and the base-unit total as
    [1500000000000000000000]. *)
Theorem scenario_two_recipients (addrA addrB : string) (w : world) :
  plain addrA -> plain addrB ->
  generate_csv [(addrA, Py.Int 1000); (addrB, Py.Int 500)] w =
    (Py.Ok tt,
     World
       (<[output_file :=
            lines_text ["address,amount";
                        addrA +:+ ",1000000000000000000000";
                        addrB +:+ ",500000000000000000000"]]> (files w))
       (console w ++
          [[Text "Generated airdrop_distribution.csv with "; Text "2";
            Text " recipients"];
           [Text "Total tokens to distribute: "; Text "1,500"; Text " AIV"];
           [Text "Total wei amount: "; Text "1500000000000000000000"]])).
Proof.
  intros HA HB. rewrite generate_csv_outcome.
  change [(addrA, Py.Int 1000); (addrB, Py.Int 500)]
    with (int_recipients [(addrA, 1000); (addrB, 500)]).
  rewrite outcome_int.
  - cbn [fst snd].
    rewrite rows_text_plain by (repeat constructor; assumption).
    reflexivity.
  - split; [| split]; [repeat constructor | |]; vm_compute; reflexivity.
Qed.

Lemma scenario_two_recipients_witness :
  plain "addrA" /\ plain "addrB" /\
  generate_csv [("addrA", Py.Int 1000); ("addrB", Py.Int 500)] empty_world =
    (Py.Ok tt,
     World
       (<[output_file :=
            lines_text ["address,amount";
                        "addrA" +:+ ",1000000000000000000000";
                        "addrB" +:+ ",500000000000000000000"]]> (files empty_world))
       (console empty_world ++
          [[Text "Generated airdrop_distribution.csv with "; Text "2";
            Text " recipients"];
           [Text "Total tokens to distribute: "; Text "1,500"; Text " AIV"];
           [Text "Total wei amount: "; Text "1500000000000000000000"]])).
Proof.
  split; [reflexivity |]. split; [reflexivity |].
  apply (scenario_two_recipients "addrA" "addrB" empty_world); reflexivity.
Defined.

(** C10: for the empty recipient list the run succeeds, the file holds
    only the header line [address,amount], and the count, the
    human-readable total and the base-unit total are all printed as 0. *)
Theorem empty_list_run (w : world) :
  generate_csv [] w =
    (Py.Ok tt,
     World (<[output_file := lines_text ["address,amount"]]> (files w))
       (console w ++
          [[Text "Generated airdrop_distribution.csv with "; Text "0";
            Text " recipients"];
           [Text "Total tokens to distribute: "; Text "0"; Text " AIV"];
           [Text "Total wei amount: "; Text "0"]])).
Proof. rewrite generate_csv_outcome. reflexivity. Qed.

(** C7: running [generate_csv] a second time leaves the files exactly as
    the first run left them: the output file is overwritten, not appended
    to.  Its content is the one a run writes when no file exists: the
    header once, followed by rows of which the i-th is the row of the i-th
    recipient. *)
Theorem rerun_overwrites (rs : list recipient) (w : world) :
  let w1 := snd (generate_csv rs w) in
  let w2 := snd (generate_csv rs w1) in
  files w2 = files w1 /\
  files w2 !! output_file =
    files (snd (generate_csv rs empty_world)) !! output_file /\
  exists rows : list (string * Z),
    files w2 !! output_file = Some (header_text +:+ rows_text rows) /\
    forall (i : nat) (address : string) (wei : Z),
      rows !! i = Some (address, wei) ->
      exists token_amount : Py.num,
        rs !! i = Some (address, token_amount) /\
        tokens_to_wei token_amount default_decimals = Py.Ok wei.
Proof.
  cbv zeta. rewrite !generate_csv_outcome. cbn [fst snd files console].
  rewrite insert_insert_eq, !lookup_insert_eq.
  split; [reflexivity |]. split; [reflexivity |].
  exists (fst (convert_rows rs)). rewrite outcome_content.
  split; [reflexivity | apply convert_rows_lookup].
Qed.

(** C9: [generate_csv] is deterministic: two runs over the same recipient
    list end the same way, leave the same content in the output file and
    print the same lines, whatever the files and the console held
    before. *)
Theorem generate_csv_deterministic (rs : list recipient) (w1 w2 : world) :
  fst (generate_csv rs w1) = fst (generate_csv rs w2) /\
  files (snd (generate_csv rs w1)) !! output_file =
    files (snd (generate_csv rs w2)) !! output_file /\
  exists printed : list (list part),
    console (snd (generate_csv rs w1)) = (console w1 ++ printed)%list /\
    console (snd (generate_csv rs w2)) = (console w2 ++ printed)%list.
Proof.
  by_outcome. repeat split.
  exists (snd (outcome rs)). split; reflexivity.
Qed.

(** C6: the data rows of the file follow the order of the input list: the
    file is the header followed by rows of which the i-th is the row of
    the i-th recipient (its address, and its amount converted); when the
    run succeeds there is a row for every recipient. *)
Theorem rows_follow_input_order (rs : list recipient) (w : world) :
  exists rows : list (string * Z),
    files (snd (generate_csv rs w)) !! output_file =
      Some (header_text +:+ rows_text rows) /\
    (forall (i : nat) (address : string) (wei : Z),
        rows !! i = Some (address, wei) ->
        exists token_amount : Py.num,
          rs !! i = Some (address, token_amount) /\
          tokens_to_wei token_amount default_decimals = Py.Ok wei) /\
    (fst (generate_csv rs w) = Py.Ok tt -> length rows = length rs).
Proof.
  exists (fst (convert_rows rs)). by_outcome. rewrite outcome_content.
  split; [reflexivity |].
  split; [apply convert_rows_lookup |].
  intros H. apply convert_rows_all, outcome_result_ok, H.
Qed.

(** C5, amended: for every recipient list of length N whose amounts all
    convert to integers of at most 4300 digits (every integer amount
    converts) and whose addresses contain no comma, double quote, CR or
    LF, the run leaves in [airdrop_distribution.csv] exactly N+1 lines:
    the header [address,amount] followed by one line [<address>,<amount>]
    per recipient, in base units. *)
Theorem csv_has_header_and_one_line_per_recipient
    (rs : list recipient) (weis : list Z) (w : world) :
  Forall (fun r => plain (fst r)) rs ->
  Forall2 writes rs weis ->
  let lines := "address,amount" :: map data_line (zip (map fst rs) weis) in
  output_file = "airdrop_distribution.csv" /\
  files (snd (generate_csv rs w)) !! output_file = Some (lines_text lines) /\
  length lines = S (length rs) /\
  line_count (lines_text lines) = S (length rs).
Proof.
  intros Hplain Hconv. cbv zeta.
  pose proof (Forall2_length _ _ _ Hconv) as Hlen.
  assert (Hrows : Forall (fun row : string * Z => plain (fst row))
                         (zip (map fst rs) weis)).
  { clear Hlen. induction Hconv as [|r wei rs weis _ _ IH]; [constructor |].
    inversion Hplain; subst. constructor; [assumption | now apply IH]. }
  assert (Hn : length (zip (map fst rs) weis) = length rs).
  { rewrite length_zip_with, length_map. unfold recipient in *. lia. }
  split; [reflexivity |].
  split; [| split].
  - by_outcome. rewrite outcome_content, (convert_rows_writes _ _ Hconv).
    cbn [fst]. rewrite (rows_text_plain _ Hrows). reflexivity.
  - cbn [length]. now rewrite length_map, Hn.
  - rewrite line_count_lines.
    + cbn [length]. now rewrite length_map, Hn.
    + constructor; [reflexivity |].
      apply Forall_map. eapply Forall_impl; [exact Hrows |].
      intros row. apply data_line_no_LF.
Qed.

Lemma csv_has_header_and_one_line_per_recipient_witness :
  let weis := [1000000000000000000000; 500000000000000000000;
               750000000000000000000; 250000000000000000000;
               300000000000000000000] in
  let lines :=
    "address,amount" :: map data_line (zip (map fst airdrop_data) weis) in
  Forall (fun r => plain (fst r)) airdrop_data /\
  Forall2 writes airdrop_data weis /\
  output_file = "airdrop_distribution.csv" /\
  files (snd (generate_csv airdrop_data empty_world)) !! output_file =
    Some (lines_text lines) /\
  length lines = S (length airdrop_data) /\
  line_count (lines_text lines) = S (length airdrop_data).
Proof.
  cbv zeta. split; [repeat constructor |].
  split;
    [repeat (constructor; [split; [reflexivity | vm_compute; reflexivity] |]);
     constructor |].
  apply (csv_has_header_and_one_line_per_recipient airdrop_data
           [1000000000000000000000; 500000000000000000000;
            750000000000000000000; 250000000000000000000;
            300000000000000000000] empty_world);
    [repeat constructor |].
  repeat (constructor; [split; [reflexivity | vm_compute; reflexivity] |]);
    constructor.
Defined.

(** C5 as stated, for every recipient list, does not hold.  An address
    that contains a line feed is written quoted, line feed included, so
    one recipient gives three lines instead of two.  An amount as large as
    the float 1e300 overflows when multiplied by 10^18, so that [int]
    raises [OverflowError] and the file is left with the header only.  And
    the integer amount 10^4300 ([str_limit]) converts to an integer of
    4319 digits: the writer raises [ValueError] and the file is left with
    the header only. *)
Lemma csv_line_count_counterexample :
  (let rs := [("0x742e8D0aED6e21E2F8daBF7c8D9b3D96aF61f5a4" +:+ char LF,
               Py.Int 1)] in
   length rs = 1%nat /\
   fst (generate_csv rs empty_world) = Py.Ok tt /\
   files (snd (generate_csv rs empty_world)) !! output_file =
     Some ("address,amount" +:+ Csv.lineterminator
           +:+ char dquote +:+ "0x742e8D0aED6e21E2F8daBF7c8D9b3D96aF61f5a4"
           +:+ char LF +:+ char dquote +:+ ",1000000000000000000"
           +:+ Csv.lineterminator) /\
   line_count ("address,amount" +:+ Csv.lineterminator
           +:+ char dquote +:+ "0x742e8D0aED6e21E2F8daBF7c8D9b3D96aF61f5a4"
           +:+ char LF +:+ char dquote +:+ ",1000000000000000000"
           +:+ Csv.lineterminator) = 3%nat)
  /\
  (let rs := [("0x742e8D0aED6e21E2F8daBF7c8D9b3D96aF61f5a4",
               Py.Float (float_of_decimal (10 ^ 300) 0))] in
   length rs = 1%nat /\
   fst (generate_csv rs empty_world) = Py.Raise Py.OverflowError /\
   files (snd (generate_csv rs empty_world)) !! output_file =
     Some ("address,amount" +:+ Csv.lineterminator) /\
   line_count ("address,amount" +:+ Csv.lineterminator) = 1%nat)
  /\
  (let rs := [("0x742e8D0aED6e21E2F8daBF7c8D9b3D96aF61f5a4",
               Py.Int str_limit)] in
   length rs = 1%nat /\
   tokens_to_wei (Py.Int str_limit) default_decimals =
     Py.Ok (str_limit * 10 ^ 18) /\
   fst (generate_csv rs empty_world) = Py.Raise Py.ValueError /\
   files (snd (generate_csv rs empty_world)) !! output_file =
     Some ("address,amount" +:+ Csv.lineterminator) /\
   line_count ("address,amount" +:+ Csv.lineterminator) = 1%nat).
Proof. by_evaluation. Qed.

(** C3, amended: for every recipient list whose amounts are all integers,
    the run returns normally when every number it turns into text (each
    base-unit amount, their total, the number of recipients) has at most
    4300 digits; and whenever it returns normally, the base-unit total it
    prints is the sum of the base-unit amounts of the rows it wrote. *)
Theorem printed_total_is_sum_of_rows (l : list (string * Z)) (w : world) :
  let run := generate_csv (int_recipients l) w in
  (all_printable l -> fst run = Py.Ok tt) /\
  (fst run = Py.Ok tt ->
   files (snd run) !! output_file =
     Some (header_text +:+ rows_text (scaled_rows l)) /\
   last (console (snd run)) =
     Some [Text "Total wei amount: ";
           Text (digits (total (map snd (scaled_rows l))))]).
Proof.
  cbv zeta. by_outcome. split.
  - intros H. rewrite (outcome_int _ H). reflexivity.
  - intros Hok.
    destruct (outcome_ok_inv _ Hok)
      as (t & tw & h & Hrows & _ & Hsum & Htw & _ & _ & Hout).
    rewrite sum_int_recipients in Hsum. injection Hsum as <-.
    rewrite tokens_to_wei_int in Htw. injection Htw as <-.
    rewrite Hout, (convert_rows_int_all _ Hrows), total_scaled.
    cbn [fst snd]. split; [reflexivity |].
    rewrite last_app. reflexivity.
Qed.

Lemma printed_total_is_sum_of_rows_witness :
  let l := [("0x742e8D0aED6e21E2F8daBF7c8D9b3D96aF61f5a4", 1000);
            ("0x1234567890123456789012345678901234567890", 500)] in
  let run := generate_csv (int_recipients l) empty_world in
  all_printable l /\
  fst run = Py.Ok tt /\
  files (snd run) !! output_file =
    Some (header_text +:+ rows_text (scaled_rows l)) /\
  last (console (snd run)) =
    Some [Text "Total wei amount: ";
          Text (digits (total (map snd (scaled_rows l))))].
Proof.
  cbv zeta.
  assert (H : all_printable
                [("0x742e8D0aED6e21E2F8daBF7c8D9b3D96aF61f5a4", 1000);
                 ("0x1234567890123456789012345678901234567890", 500)]).
  { split; [| split]; [repeat constructor | |]; vm_compute; reflexivity. }
  split; [exact H |].
  destruct (printed_total_is_sum_of_rows
              [("0x742e8D0aED6e21E2F8daBF7c8D9b3D96aF61f5a4", 1000);
               ("0x1234567890123456789012345678901234567890", 500)]
              empty_world) as [Hreturns Htotal].
  split; [exact (Hreturns H) | exact (Htotal (Hreturns H))].
Defined.

(** C3 as stated, for every recipient list, does not hold: with the float
    amounts 1.1 and 1.5 (whose sum 2.6 is computed exactly) the rows hold
    1100000000000000128 and 1500000000000000000, which add up to
    2600000000000000128, and the total printed is 2600000000000000000.
    With the integer amount 5 * 10^4281 twice (10^4281 is
    [str_limit / 10^19]), the total 10^4300 of the rows has 4301 digits:
    the run raises [ValueError] after two lines and prints no base-unit
    total. *)
Lemma printed_total_counterexample :
  (let rs := [("0x742e8D0aED6e21E2F8daBF7c8D9b3D96aF61f5a4",
               py_amount (Decimal 11 1));
              ("0x1234567890123456789012345678901234567890",
               py_amount (Decimal 15 1))] in
   let rows := [("0x742e8D0aED6e21E2F8daBF7c8D9b3D96aF61f5a4",
                 1100000000000000128);
                ("0x1234567890123456789012345678901234567890",
                 1500000000000000000)] in
   fst (generate_csv rs empty_world) = Py.Ok tt /\
   files (snd (generate_csv rs empty_world)) !! output_file =
     Some (header_text +:+ rows_text rows) /\
   last (console (snd (generate_csv rs empty_world))) =
     Some [Text "Total wei amount: "; Text (digits 2600000000000000000)] /\
   total (map snd rows) = 2600000000000000128 /\
   total (map snd rows) <> 2600000000000000000)
  /\
  (let a := 5 * (str_limit / 10 ^ 19) in
   let l := [("0x742e8D0aED6e21E2F8daBF7c8D9b3D96aF61f5a4", a);
             ("0x1234567890123456789012345678901234567890", a)] in
   let run := generate_csv (int_recipients l) empty_world in
   fst run = Py.Raise Py.ValueError /\
   total (map snd (scaled_rows l)) = str_limit /\
   length (console (snd run)) = 2%nat).
Proof. by_evaluation. Qed.

(** C2, amended: for every recipient record whose amount is an integer,
    or one of the decimals 0.1 and 0.5, the amount written in its row is
    the amount times 10^18 with no rounding loss.  (The rows written are
    those of the recipients, in order; all of them when the run returns
    normally.) *)
Theorem rows_are_exact (l : list (string * amount)) (w : world) :
  exists rows : list (string * Z),
    files (snd (generate_csv (py_recipients l) w)) !! output_file =
      Some (header_text +:+ rows_text rows) /\
    (forall (i : nat) (address : string) (wei : Z),
        rows !! i = Some (address, wei) ->
        exists x : amount,
          l !! i = Some (address, x) /\
          (integer_or_tenth_or_half x = true -> exact_wei x wei)) /\
    (fst (generate_csv (py_recipients l) w) = Py.Ok tt ->
     length rows = length l).
Proof.
  exists (fst (convert_rows (py_recipients l))). by_outcome.
  rewrite outcome_content. split; [reflexivity |]. split.
  - intros i address wei Hrow.
    destruct (convert_rows_lookup _ _ _ _ Hrow) as [t [Hi Ht]].
    unfold py_recipients in Hi. rewrite list_lookup_fmap in Hi.
    destruct (l !! i) as [[address' x]|]; [| discriminate Hi].
    cbn in Hi. injection Hi as -> <-.
    exists x. split; [reflexivity |]. intros Hx.
    destruct (tokens_to_wei_exact_amount x Hx) as [wei' [Hwei' Hexact]].
    rewrite Ht in Hwei'. injection Hwei' as <-. exact Hexact.
  - intros Hok. rewrite (convert_rows_all _ (outcome_result_ok _ Hok)).
    unfold py_recipients. apply length_map.
Qed.

Lemma rows_are_exact_witness :
  let l := [("0x742e8D0aED6e21E2F8daBF7c8D9b3D96aF61f5a4", Integer 1000);
            ("0x1234567890123456789012345678901234567890", Decimal 1 1);
            ("0xabcdefabcdefabcdefabcdefabcdefabcdefabcd", Decimal 5 1)] in
  Forall (fun r => integer_or_tenth_or_half (snd r) = true) l /\
  fst (generate_csv (py_recipients l) empty_world) = Py.Ok tt /\
  exists rows : list (string * Z),
    files (snd (generate_csv (py_recipients l) empty_world)) !! output_file =
      Some (header_text +:+ rows_text rows) /\
    (forall (i : nat) (address : string) (wei : Z),
        rows !! i = Some (address, wei) ->
        exists x : amount,
          l !! i = Some (address, x) /\
          (integer_or_tenth_or_half x = true -> exact_wei x wei)) /\
    (fst (generate_csv (py_recipients l) empty_world) = Py.Ok tt ->
     length rows = length l).
Proof.
  cbv zeta. split; [repeat constructor |].
  split; [vm_compute; reflexivity |].
  exact (rows_are_exact
           [("0x742e8D0aED6e21E2F8daBF7c8D9b3D96aF61f5a4", Integer 1000);
            ("0x1234567890123456789012345678901234567890", Decimal 1 1);
            ("0xabcdefabcdefabcdefabcdefabcdefabcdefabcd", Decimal 5 1)]
           empty_world).
Defined.

(** C2 as stated, for every exact decimal, does not hold: the decimal 1.1
    is read as the float 4953959590107546 * 2^-52, and the row written for
    it holds 1100000000000000128, which is not 1.1 * 10^18.  The same
    happens with a decimal that binary64 holds exactly: for 1181.5 the row
    holds 1181500000000000131072. *)
Lemma rows_are_exact_counterexample :
  (let address := "0x742e8D0aED6e21E2F8daBF7c8D9b3D96aF61f5a4" in
   py_amount (Decimal 11 1) =
     Py.Float (S754_finite false 4953959590107546 (-52)) /\
   files (snd (generate_csv (py_recipients [(address, Decimal 11 1)])
                            empty_world)) !! output_file =
     Some (header_text +:+ rows_text [(address, 1100000000000000128)]) /\
   ~ exact_wei (Decimal 11 1) 1100000000000000128)
  /\
  (let address := "0x742e8D0aED6e21E2F8daBF7c8D9b3D96aF61f5a4" in
   py_amount (Decimal 11815 1) =
     Py.Float (S754_finite false 5196291952869376 (-42)) /\
   5196291952869376 * 10 = 11815 * 2 ^ 42 /\
   files (snd (generate_csv (py_recipients [(address, Decimal 11815 1)])
                            empty_world)) !! output_file =
     Some (header_text +:+ rows_text [(address, 1181500000000000131072)]) /\
   ~ exact_wei (Decimal 11815 1) 1181500000000000131072).
Proof.
  cbv zeta. split_conj; try (vm_compute; reflexivity);
    unfold exact_wei; vm_compute; discriminate.
Qed.

(** ** Further properties of the script *)

(** *** Frame and console *)

(** X1: a run creates or changes no file other than the output file. *)
Theorem other_files_untouched (rs : list recipient) (w : world) (name : string) :
  name <> output_file ->
  files (snd (generate_csv rs w)) !! name = files w !! name.
Proof.
  intros H. rewrite generate_csv_outcome. cbn [snd files].
  now rewrite lookup_insert_ne.
Qed.

Lemma other_files_untouched_witness :
  let w := World {[ "recipients.txt" := "kept" ]} [] in
  "recipients.txt" <> output_file /\
  files (snd (generate_csv airdrop_data w)) !! "recipients.txt" =
    files w !! "recipients.txt".
Proof.
  cbv zeta. split; [discriminate |].
  apply (other_files_untouched airdrop_data
           (World {[ "recipients.txt" := "kept" ]} []) "recipients.txt").
  discriminate.
Defined.

(** X2: a run keeps what the console held and adds lines to it: three
    when it returns normally, at most two when it raises. *)
Theorem printed_lines (rs : list recipient) (w : world) :
  exists printed : list (list part),
    console (snd (generate_csv rs w)) = (console w ++ printed)%list /\
    ((fst (generate_csv rs w) = Py.Ok tt /\ length printed = 3%nat) \/
     (exists e, fst (generate_csv rs w) = Py.Raise e /\
                (length printed <= 2)%nat)).
Proof.
  exists (snd (outcome rs)). by_outcome. split; [reflexivity |].
  unfold outcome, summary.
  destruct (convert_rows rs) as [rows [e|]]; cbn [fst snd];
    [right; exists e; split; [reflexivity | cbn; lia] |].
  destruct (str (Z.of_nat (length rs))) as [count|e]; cbn [fst snd];
    [| right; exists e; split; [reflexivity | cbn; lia]].
  destruct (sum (map snd rs)) as [t|e]; cbn [fst snd];
    [| right; exists e; split; [reflexivity | cbn; lia]].
  destruct (tokens_to_wei t default_decimals) as [tw|e]; cbn [fst snd];
    [| right; exists e; split; [reflexivity | cbn; lia]].
  destruct (format_comma t) as [h|e]; cbn [fst snd];
    [| right; exists e; split; [reflexivity | cbn; lia]].
  destruct (str tw) as [wt|e]; cbn [fst snd];
    [| right; exists e; split; [reflexivity | cbn; lia]].
  left. split; reflexivity.
Qed.

(** *** Exceptions *)

(** X3: when the row of a recipient cannot be written (its amount does
    not convert, or converts to an integer of more than 4300 digits) and
    the rows before it can, the run raises that exception at once: the
    file is left with the header and the rows of the recipients before
    it, the recipients after it are not written, and nothing is
    printed. *)
Theorem failing_row_aborts
    (before after : list recipient) (weis : list Z)
    (address : string) (token_amount : Py.num) (e : Py.exn) (w : world) :
  Forall2 writes before weis ->
  fails token_amount e ->
  generate_csv (before ++ (address, token_amount) :: after)%list w =
    (Py.Raise e,
     World (<[output_file :=
                header_text +:+ rows_text (zip (map fst before) weis)]> (files w))
           (console w)).
Proof.
  intros Hbefore Hfail. rewrite generate_csv_outcome. unfold outcome.
  rewrite (convert_rows_app _ _ _ Hbefore), (convert_rows_fails _ _ _ _ Hfail).
  cbn [fst snd]. rewrite !app_nil_r. reflexivity.
Qed.

Lemma failing_row_aborts_witness :
  let before := [("0x742e8D0aED6e21E2F8daBF7c8D9b3D96aF61f5a4", Py.Int 1000)] in
  let after := [("0xabcdefabcdefabcdefabcdefabcdefabcdefabcd", Py.Int 750)] in
  let address := "0x1234567890123456789012345678901234567890" in
  let token_amount := py_amount (Decimal (10 ^ 300) 0) in
  let weis := [1000000000000000000000] in
  Forall2 writes before weis /\
  fails token_amount Py.OverflowError /\
  generate_csv (before ++ (address, token_amount) :: after)%list empty_world =
    (Py.Raise Py.OverflowError,
     World (<[output_file :=
                header_text +:+ rows_text (zip (map fst before) weis)]>
              (files empty_world))
           (console empty_world)).
Proof.
  cbv zeta.
  assert (Hb : Forall2 writes
                 [("0x742e8D0aED6e21E2F8daBF7c8D9b3D96aF61f5a4", Py.Int 1000)]
                 [1000000000000000000000]).
  { constructor; [split; [reflexivity | vm_compute; reflexivity] | constructor]. }
  assert (Hf : fails (py_amount (Decimal (10 ^ 300) 0)) Py.OverflowError).
  { left. vm_compute. reflexivity. }
  split; [exact Hb |]. split; [exact Hf |].
  exact (failing_row_aborts
           [("0x742e8D0aED6e21E2F8daBF7c8D9b3D96aF61f5a4", Py.Int 1000)]
           [("0xabcdefabcdefabcdefabcdefabcdefabcdefabcd", Py.Int 750)]
           [1000000000000000000000]
           "0x1234567890123456789012345678901234567890"
           (py_amount (Decimal (10 ^ 300) 0)) Py.OverflowError empty_world
           Hb Hf).
Defined.

(** X4: when every row can be written and the number of recipients
    printed, but the total does not convert (the sum, or its conversion,
    raises), the run raises after the file is complete: every row is
    written and only the recipient count is printed. *)
Theorem failing_total_keeps_rows
    (rs : list recipient) (weis : list Z) (e : Py.exn) (w : world) :
  Forall2 writes rs weis ->
  printable (Z.of_nat (length rs)) ->
  total_wei rs = Py.Raise e ->
  generate_csv rs w =
    (Py.Raise e,
     World (<[output_file :=
                header_text +:+ rows_text (zip (map fst rs) weis)]> (files w))
           (console w ++
              [[Text "Generated airdrop_distribution.csv with ";
                Text (digits (Z.of_nat (length rs))); Text " recipients"]])).
Proof.
  intros Hrows Hcount Htotal. rewrite generate_csv_outcome.
  unfold outcome, summary.
  rewrite (convert_rows_writes _ _ Hrows), (str_printable _ Hcount).
  unfold total_wei in Htotal.
  destruct (sum (map snd rs)) as [t|e'].
  - rewrite Htotal. reflexivity.
  - injection Htotal as ->. reflexivity.
Qed.

Lemma failing_total_keeps_rows_witness :
  let rs := [("0x742e8D0aED6e21E2F8daBF7c8D9b3D96aF61f5a4",
              py_amount (Decimal (10 ^ 290) 0));
             ("0x1234567890123456789012345678901234567890",
              py_amount (Decimal (10 ^ 290) 0))] in
  let wei := 100000000000000001097906362944045541740492309677311846336810682903157585404911491537163328978494688899061249669721172515611590283743140088328307009198146046031271664502933027185697489699588559043338384466165001178426897626212945177628091195786707458122783970171784415105291802893207873272974885715430223118336 in
  Forall2 writes rs [wei; wei] /\
  printable (Z.of_nat (length rs)) /\
  total_wei rs = Py.Raise Py.OverflowError /\
  generate_csv rs empty_world =
    (Py.Raise Py.OverflowError,
     World (<[output_file :=
                header_text +:+ rows_text (zip (map fst rs) [wei; wei])]>
              (files empty_world))
           (console empty_world ++
              [[Text "Generated airdrop_distribution.csv with ";
                Text (digits (Z.of_nat (length rs))); Text " recipients"]])).
Proof.
  cbv zeta.
  split;
    [repeat (constructor; [split; vm_compute; reflexivity |]); constructor |].
  split; [vm_compute; reflexivity |].
  split; [vm_compute; reflexivity |].
  apply (failing_total_keeps_rows
           [("0x742e8D0aED6e21E2F8daBF7c8D9b3D96aF61f5a4",
             py_amount (Decimal (10 ^ 290) 0));
            ("0x1234567890123456789012345678901234567890",
             py_amount (Decimal (10 ^ 290) 0))]
           _ Py.OverflowError empty_world).
  - repeat (constructor; [split; vm_compute; reflexivity |]); constructor.
  - vm_compute. reflexivity.
  - vm_compute. reflexivity.
Defined.

(** X5: an infinite or NaN amount never converts: [tokens_to_wei] raises
    for it, whatever [decimals] is. *)
Theorem non_finite_amount_raises (d : N) :
  (forall s : bool,
      exists e, tokens_to_wei (Py.Float (S754_infinity s)) d = Py.Raise e) /\
  (exists e, tokens_to_wei (Py.Float S754_nan) d = Py.Raise e).
Proof.
  unfold tokens_to_wei, Py.pow10. cbn [Py.mul].
  split; [intros s |];
    (destruct (Py.float_of_int (10 ^ Z.of_N d)) as [y|e];
     [destruct y as [sy|sy| |sy my ey]; cbn; eauto | eauto]).
Qed.

(** *** Integer amounts *)

(** X6: on an integer amount the conversion loses nothing: the result is
    a multiple of [10^decimals] and dividing it by [10^decimals] gives the
    amount back. *)
Theorem tokens_to_wei_round_trip (a : Z) (d : N) :
  exists wei : Z,
    tokens_to_wei (Py.Int a) d = Py.Ok wei /\
    wei mod 10 ^ Z.of_N d = 0 /\
    wei / 10 ^ Z.of_N d = a.
Proof.
  exists (a * 10 ^ Z.of_N d). split; [apply tokens_to_wei_int |].
  assert (H : 10 ^ Z.of_N d <> 0) by (apply Z.pow_nonzero; lia).
  split; [apply Z.mod_mul | apply Z.div_mul]; exact H.
Qed.

(** X7: on integer amounts the conversion is strictly increasing (so two
    different amounts never give the same base-unit amount). *)
Theorem tokens_to_wei_increasing (a b : Z) (d : N) :
  a < b ->
  exists wa wb : Z,
    tokens_to_wei (Py.Int a) d = Py.Ok wa /\
    tokens_to_wei (Py.Int b) d = Py.Ok wb /\
    wa < wb.
Proof.
  intros H. exists (a * 10 ^ Z.of_N d), (b * 10 ^ Z.of_N d).
  rewrite !tokens_to_wei_int. repeat split.
  apply Z.mul_lt_mono_pos_r; [apply Z.pow_pos_nonneg; lia | exact H].
Qed.

Lemma tokens_to_wei_increasing_witness :
  250 < 300 /\
  exists wa wb : Z,
    tokens_to_wei (Py.Int 250) 18 = Py.Ok wa /\
    tokens_to_wei (Py.Int 300) 18 = Py.Ok wb /\
    wa < wb.
Proof. split; [lia | apply (tokens_to_wei_increasing 250 300 18); lia]. Defined.

(** X8: for a list of integer amounts, when the run returns normally the
    three printed lines are the number of recipients, the sum of the
    amounts with its digits grouped by thousands, and that sum times
    10^18. *)
Theorem integer_summary (l : list (string * Z)) (w : world) :
  fst (generate_csv (int_recipients l) w) = Py.Ok tt ->
  console (snd (generate_csv (int_recipients l) w)) =
    (console w ++
       [[Text "Generated airdrop_distribution.csv with ";
         Text (digits (Z.of_nat (length l))); Text " recipients"];
        [Text "Total tokens to distribute: ";
         Text (grouped (total (map snd l))); Text " AIV"];
        [Text "Total wei amount: ";
         Text (digits (total (map snd l) * 10 ^ Z.of_N default_decimals))]])%list.
Proof.
  rewrite !generate_csv_outcome. cbn [fst snd console]. intros Hok.
  destruct (outcome_ok_inv _ Hok)
    as (t & tw & h & _ & _ & Hsum & Htw & Hh & Hp & Hout).
  rewrite sum_int_recipients in Hsum. injection Hsum as <-.
  rewrite tokens_to_wei_int in Htw. injection Htw as <-.
  cbn [format_comma] in Hh.
  assert (Hpt : printable (total (map snd l))).
  { apply printable_total_tokens. now rewrite total_scaled. }
  rewrite (format_int_comma_printable _ Hpt) in Hh. injection Hh as <-.
  rewrite Hout. cbn [snd]. unfold int_recipients. rewrite length_map.
  reflexivity.
Qed.

Lemma integer_summary_witness :
  let l := [("0x742e8D0aED6e21E2F8daBF7c8D9b3D96aF61f5a4", 1000);
            ("0x1234567890123456789012345678901234567890", 500)] in
  fst (generate_csv (int_recipients l) empty_world) = Py.Ok tt /\
  console (snd (generate_csv (int_recipients l) empty_world)) =
    (console empty_world ++
       [[Text "Generated airdrop_distribution.csv with ";
         Text (digits (Z.of_nat (length l))); Text " recipients"];
        [Text "Total tokens to distribute: ";
         Text (grouped (total (map snd l))); Text " AIV"];
        [Text "Total wei amount: ";
         Text (digits (total (map snd l) * 10 ^ Z.of_N default_decimals))]])%list.
Proof.
  cbv zeta. split; [vm_compute; reflexivity |].
  apply (integer_summary
           [("0x742e8D0aED6e21E2F8daBF7c8D9b3D96aF61f5a4", 1000);
            ("0x1234567890123456789012345678901234567890", 500)] empty_world).
  vm_compute. reflexivity.
Defined.

(** *** Amounts written as floats *)

Lemma scales_exactly_spec (x : amount) :
  scales_exactly x = true ->
  exists wei : Z,
    tokens_to_wei (py_amount x) default_decimals = Py.Ok wei /\ exact_wei x wei.
Proof.
  unfold scales_exactly.
  destruct (tokens_to_wei (py_amount x) default_decimals) as [wei|e];
    [| destruct x; discriminate].
  intros H. exists wei. split; [reflexivity |].
  destruct x as [a | m k]; apply Z.eqb_eq in H; exact H.
Qed.

Lemma scales_exactly_range (k : N) (bound : Z) :
  forallb (fun m => scales_exactly (Decimal m k)) (seqZ 0 (bound + 1)) = true ->
  forall m : Z, 0 <= m <= bound -> scales_exactly (Decimal m k) = true.
Proof.
  intros Hall m Hm.
  apply (proj1 (forallb_forall _ _) Hall), list_elem_of_In, elem_of_seqZ. lia.
Qed.

(** X9: a float amount converts with no rounding loss when it is a whole
    number up to 2362.0, a number of tenths up to 1.0, or a number of
    hundredths up to 0.06. *)
Theorem small_float_amounts_exact (m : Z) (k : N) :
  (k = 0%N /\ 0 <= m <= 2362) \/
  (k = 1%N /\ 0 <= m <= 10) \/
  (k = 2%N /\ 0 <= m <= 6) ->
  exists wei : Z,
    tokens_to_wei (Py.Float (float_of_decimal m k)) default_decimals = Py.Ok wei /\
    wei * 10 ^ Z.of_N k = m * 10 ^ Z.of_N default_decimals.
Proof.
  intros H. apply (scales_exactly_spec (Decimal m k)).
  destruct H as [[-> Hm] | [[-> Hm] | [-> Hm]]].
  - apply (scales_exactly_range 0 2362); [vm_compute; reflexivity | exact Hm].
  - apply (scales_exactly_range 1 10); [vm_compute; reflexivity | exact Hm].
  - apply (scales_exactly_range 2 6); [vm_compute; reflexivity | exact Hm].
Qed.

Lemma small_float_amounts_exact_witness :
  ((2%N = 0%N /\ 0 <= 5 <= 2362) \/
   (2%N = 1%N /\ 0 <= 5 <= 10) \/
   (2%N = 2%N /\ 0 <= 5 <= 6)) /\
  exists wei : Z,
    tokens_to_wei (Py.Float (float_of_decimal 5 2)) default_decimals = Py.Ok wei /\
    wei * 10 ^ Z.of_N 2 = 5 * 10 ^ Z.of_N default_decimals.
Proof.
  split; [right; right; split; [reflexivity | lia] |].
  apply (small_float_amounts_exact 5 2).
  right; right; split; [reflexivity | lia].
Defined.

(** These bounds cannot be raised: the floats 2363.0, 1.1 and 0.07
    are written as 2363000000000000262144, 1100000000000000128 and
    70000000000000008. *)
Theorem first_inexact_float_amounts :
  tokens_to_wei (Py.Float (float_of_decimal 2363 0)) default_decimals =
    Py.Ok 2363000000000000262144 /\
  tokens_to_wei (Py.Float (float_of_decimal 11 1)) default_decimals =
    Py.Ok 1100000000000000128 /\
  tokens_to_wei (Py.Float (float_of_decimal 7 2)) default_decimals =
    Py.Ok 70000000000000008.
Proof. repeat split; vm_compute; reflexivity. Qed.

(** *** Lists put together *)

(** X10: when every row of a first list can be written, the file written
    for the two lists put together is the file of the first list followed
    by the data rows of the file of the second. *)
Theorem appended_lists_append_rows
    (rs1 rs2 : list recipient) (weis1 : list Z) (w : world) :
  Forall2 writes rs1 weis1 ->
  exists rows1 rows2 : string,
    written rs1 w = Some (header_text +:+ rows1) /\
    written rs2 w = Some (header_text +:+ rows2) /\
    written (rs1 ++ rs2)%list w = Some (header_text +:+ rows1 +:+ rows2).
Proof.
  intros H1.
  exists (rows_text (zip (map fst rs1) weis1)),
         (rows_text (fst (convert_rows rs2))).
  by_outcome. rewrite !outcome_content.
  rewrite (convert_rows_writes _ _ H1), (convert_rows_app _ _ _ H1).
  cbn [fst]. rewrite rows_text_app. repeat split.
Qed.

Lemma appended_lists_append_rows_witness :
  let rs1 := firstn 2 airdrop_data in
  let rs2 := skipn 2 airdrop_data in
  let weis1 := [1000000000000000000000; 500000000000000000000] in
  Forall2 writes rs1 weis1 /\
  exists rows1 rows2 : string,
    written rs1 empty_world = Some (header_text +:+ rows1) /\
    written rs2 empty_world = Some (header_text +:+ rows2) /\
    written (rs1 ++ rs2)%list empty_world =
      Some (header_text +:+ rows1 +:+ rows2).
Proof.
  cbv zeta.
  assert (H : Forall2 writes (firstn 2 airdrop_data)
                [1000000000000000000000; 500000000000000000000]).
  { repeat (constructor; [split; [reflexivity | vm_compute; reflexivity] |]).
    constructor. }
  split; [exact H |].
  exact (appended_lists_append_rows (firstn 2 airdrop_data)
           (skipn 2 airdrop_data)
           [1000000000000000000000; 500000000000000000000] empty_world H).
Defined.

(** *** Quoting *)

Lemma string_length_app (a b : string) :
  String.length (a +:+ b) = (String.length a + String.length b)%nat.
Proof.
  induction a as [|x a IH]; [reflexivity |].
  change (S (String.length (a +:+ b)) = S (String.length a + String.length b)).
  now rewrite IH.
Qed.

Lemma double_quotes_length (s : string) :
  String.length (Csv.double_quotes s) =
  (String.length s + count_char dquote s)%nat.
Proof.
  induction s as [|x s IH]; [reflexivity |].
  cbn [Csv.double_quotes count_char String.length].
  destruct (Ascii.eqb x dquote); cbn [String.length]; rewrite IH; lia.
Qed.

(** X11: an address that contains a comma, a double quote, CR or LF is
    not written as it is: it is enclosed in double quotes with its own
    double quotes doubled, so its row is 2 characters longer than
    [<address>,<amount>], plus one for each double quote of the address
    (for an integer amount whose base-unit value has at most 4300
    digits). *)
Theorem special_address_is_quoted (address : string) (a : Z) (w : world) :
  Csv.needs_quoting address = true ->
  printable (a * 10 ^ Z.of_N default_decimals) ->
  let wei := a * 10 ^ Z.of_N default_decimals in
  let verbatim := lines_text ["address,amount"; data_line (address, wei)] in
  exists content : string,
    written [(address, Py.Int a)] w = Some content /\
    content =
      "address,amount" +:+ Csv.lineterminator +:+ char dquote
      +:+ Csv.double_quotes address +:+ char dquote +:+ char comma
      +:+ digits wei +:+ Csv.lineterminator /\
    String.length content =
      (String.length verbatim + 2 + count_char dquote address)%nat.
Proof.
  intros Hq Hp. cbv zeta. eexists. split; [| split].
  - by_outcome. rewrite outcome_content. cbn [convert_rows].
    rewrite tokens_to_wei_int, (str_printable _ Hp). cbn [fst rows_text].
    reflexivity.
  - unfold csv_row, Csv.line. cbn [map Csv.join].
    unfold Csv.field at 1. rewrite Hq, (field_plain _ (plain_digits _)).
    rewrite header_text_line, string_app_nil_r, !string_app_assoc.
    reflexivity.
  - unfold csv_row, Csv.line. cbn [map Csv.join].
    unfold Csv.field at 1. rewrite Hq, (field_plain _ (plain_digits _)).
    cbn [lines_text]. unfold data_line. cbn [fst snd].
    rewrite header_text_line, !string_length_app, double_quotes_length.
    cbn [String.length char]. lia.
Qed.

Lemma special_address_is_quoted_witness :
  let address := "0x742e8D0aED6e21E2F8daBF7c8D9b3D96aF61f5a4,extra" in
  let wei := 1000 * 10 ^ Z.of_N default_decimals in
  let verbatim := lines_text ["address,amount"; data_line (address, wei)] in
  Csv.needs_quoting address = true /\
  printable wei /\
  exists content : string,
    written [(address, Py.Int 1000)] empty_world = Some content /\
    content =
      "address,amount" +:+ Csv.lineterminator +:+ char dquote
      +:+ Csv.double_quotes address +:+ char dquote +:+ char comma
      +:+ digits wei +:+ Csv.lineterminator /\
    String.length content =
      (String.length verbatim + 2 + count_char dquote address)%nat.
Proof.
  cbv zeta. split; [reflexivity |]. split; [vm_compute; reflexivity |].
  apply (special_address_is_quoted
           "0x742e8D0aED6e21E2F8daBF7c8D9b3D96aF61f5a4,extra" 1000 empty_world);
    [reflexivity | vm_compute; reflexivity].
Defined.

(** *** Digit grouping *)

Lemma strip_commas_of_list (l : list ascii) :
  strip_commas (string_of_list_ascii l) =
  string_of_list_ascii (List.filter not_comma l).
Proof.
  induction l as [|c l IH]; [reflexivity |].
  cbn [string_of_list_ascii strip_commas List.filter]. unfold not_comma at 1.
  destruct (Ascii.eqb c comma); cbn [negb string_of_list_ascii]; now rewrite IH.
Qed.

Lemma filter_group_thousands (ds : list ascii) :
  forall k : nat,
    List.filter not_comma (group_thousands ds k) = List.filter not_comma ds.
Proof.
  induction ds as [|d ds IH]; intros k; [reflexivity |].
  cbn [group_thousands].
  destruct k as [|[|[|[|k]]]]; cbn [List.filter]; rewrite ?IH; reflexivity.
Qed.

Lemma strip_commas_plain (s : string) : plain s -> strip_commas s = s.
Proof.
  unfold plain. induction s as [|c s IH]; [reflexivity |].
  cbn [Csv.needs_quoting strip_commas]. intros H.
  apply orb_false_iff in H as [Hc Hs]. unfold Csv.special in Hc.
  apply orb_false_iff in Hc as [Hc _]. apply orb_false_iff in Hc as [Hc _].
  apply orb_false_iff in Hc as [Hc _]. rewrite Hc, (IH Hs). reflexivity.
Qed.

Lemma grouped_digits (z : Z) : strip_commas (grouped z) = digits z.
Proof.
  assert (Habs : strip_commas
                   (string_of_list_ascii
                      (rev (group_thousands
                              (rev (list_ascii_of_string (digits (Z.abs z)))) 0)))
                 = digits (Z.abs z)).
  { rewrite strip_commas_of_list, List.filter_rev, filter_group_thousands.
    rewrite <- List.filter_rev, rev_involutive, <- strip_commas_of_list.
    rewrite string_of_list_ascii_of_string.
    apply strip_commas_plain, plain_digits. }
  unfold grouped. destruct z as [|p|p].
  - reflexivity.
  - cbn [Z.ltb Z.compare]. exact Habs.
  - cbn [Z.ltb Z.compare].
    change (String "-" (strip_commas
              (string_of_list_ascii
                 (rev (group_thousands
                         (rev (list_ascii_of_string (digits (Z.abs (Z.neg p))))) 0))))
            = digits (Z.neg p)).
    rewrite Habs. reflexivity.
Qed.

(** X12: the human-readable total of an integer differs from its plain
    decimal writing by the commas only: without them, [format(i, ',')] is
    [str(i)]; and the two raise for the same integers. *)
Theorem format_int_comma_digits (z : Z) :
  Py.map strip_commas (format_int_comma z) = str z.
Proof.
  unfold format_int_comma, str. destruct (too_long z); cbn [Py.map];
    [reflexivity |].
  now rewrite grouped_digits.
Qed.

(** *** The script as run *)

(** X13: run as a script, from any state of the files and of the console,
    the program returns normally, leaves six lines in the output file (the
    header and the five recipients of [airdrop_data], in base units) and
    prints the count 5 and the totals 2,800 and 2800000000000000000000. *)
Theorem main_writes_distribution (w : world) :
  main w =
    (Py.Ok tt,
     World
       (<[ output_file :=
            lines_text
              ["address,amount";
               "0x742e8D0aED6e21E2F8daBF7c8D9b3D96aF61f5a4,1000000000000000000000";
               "0x1234567890123456789012345678901234567890,500000000000000000000";
               "0xabcdefabcdefabcdefabcdefabcdefabcdefabcd,750000000000000000000";
               "0x9876543210987654321098765432109876543210,250000000000000000000";
               "0xfedcba0987654321fedcba0987654321fedcba09,300000000000000000000"] ]>
          (files w))
       (console w ++
          [[Text "Generated airdrop_distribution.csv with "; Text "5";
            Text " recipients"];
           [Text "Total tokens to distribute: "; Text "2,800"; Text " AIV"];
           [Text "Total wei amount: "; Text "2800000000000000000000"]])).
Proof. unfold main. rewrite generate_csv_outcome. vm_compute outcome. reflexivity. Qed.

(** *** Float amounts and large exponents *)

Lemma digits2_pos_size (p : positive) : digits2_pos p = Pos.size p.
Proof. induction p as [p IH|p IH|]; cbn; now rewrite ?IH. Qed.

Lemma digits2_pos_bounds (p : positive) :
  2 ^ (Z.pos (digits2_pos p) - 1) <= Z.pos p < 2 ^ Z.pos (digits2_pos p).
Proof.
  rewrite digits2_pos_size. split.
  - pose proof (Pos.size_le p) as H.
    apply Pos2Z.pos_le_pos in H. rewrite Pos2Z.inj_pow in H.
    replace (Z.pos (Pos.size p)) with (Z.succ (Z.pos (Pos.size p) - 1)) in H by lia.
    rewrite Z.pow_succ_r in H by lia. lia.
  - pose proof (Pos.size_gt p) as H.
    apply Pos2Z.pos_lt_pos in H. now rewrite Pos2Z.inj_pow in H.
Qed.

Lemma shr_1_m (mrs : shr_record) :
  0 <= shr_m mrs -> shr_m (shr_1 mrs) = Z.div2 (shr_m mrs).
Proof.
  destruct mrs as [m r s]. cbn [shr_m shr_1].
  destruct m as [|[p|p|]|p]; cbn; intros H; try reflexivity; lia.
Qed.

Lemma iter_shr_1_m (q : positive) :
  forall mrs : shr_record,
    0 <= shr_m mrs ->
    shr_m (SpecFloat.iter_pos shr_1 q mrs) = Z.shiftr (shr_m mrs) (Z.pos q).
Proof.
  assert (Hnn : forall (x : Z) (k : positive), 0 <= x -> 0 <= Z.shiftr x (Z.pos k)).
  { intros x k Hx. now apply Z.shiftr_nonneg. }
  assert (Hdiv2 : forall x, 0 <= x -> 0 <= Z.div2 x).
  { intros x Hx. rewrite Z.div2_spec. now apply Z.shiftr_nonneg. }
  induction q as [q IH|q IH|]; intros mrs H; cbn [SpecFloat.iter_pos].
  - rewrite IH, IH, shr_1_m; try assumption.
    + rewrite Z.div2_spec, !Z.shiftr_shiftr by lia. f_equal. lia.
    + rewrite shr_1_m by assumption. now apply Hdiv2.
    + rewrite IH, shr_1_m; try assumption.
      * apply Hnn. now apply Hdiv2.
      * rewrite shr_1_m by assumption. now apply Hdiv2.
  - rewrite IH, IH; try assumption.
    + rewrite !Z.shiftr_shiftr by lia. f_equal. lia.
    + rewrite IH by assumption. now apply Hnn.
  - rewrite shr_1_m by assumption. apply Z.div2_spec.
Qed.

Lemma shr_fexp_positive (M : positive) (e : Z) :
  - 1074 <= e ->
  0 < shr_m (fst (shr_fexp Py.prec Py.emax (Z.pos M) e loc_Exact)) /\
  snd (shr_fexp Py.prec Py.emax (Z.pos M) e loc_Exact) =
    Z.max e (Z.pos (digits2_pos M) + e - 53).
Proof.
  intros He. unfold shr_fexp, shr, fexp, emin, Py.prec, Py.emax.
  cbn [Zdigits2 shr_record_of_loc].
  pose proof (digits2_pos_bounds M) as [Hlo Hhi].
  set (D := Z.pos (digits2_pos M)) in *.
  destruct (Z.max (D + e - 53) (3 - 1024 - 53) - e) as [|q|q] eqn:Hn;
    cbn [fst snd shr_m].
  - split; lia.
  - split; [| lia].
    rewrite iter_shr_1_m by (cbn; lia). cbn [shr_m].
    rewrite Z.shiftr_div_pow2 by lia.
    apply Z.div_str_pos. split; [apply Z.pow_pos_nonneg; lia |].
    etransitivity; [| exact Hlo]. apply Z.pow_le_mono_r; lia.
  - split; lia.
Qed.

Lemma round_nearest_even_ge (m : Z) (l : location) :
  m <= round_nearest_even m l.
Proof.
  destruct l as [|[| |]]; cbn [round_nearest_even]; try lia.
  destruct (Z.even m); lia.
Qed.

(** [float(i)] raises [OverflowError] for every [int] from [2^1024]. *)
Lemma float_of_int_overflow (z : Z) :
  2 ^ 1024 <= z -> Py.float_of_int z = Py.Raise Py.OverflowError.
Proof.
  intros Hz. destruct z as [|p|p]; try (exfalso; lia).
  pose proof (digits2_pos_bounds p) as [_ Hhi].
  assert (HD : 1025 <= Z.pos (digits2_pos p)).
  { destruct (Z.le_gt_cases 1025 (Z.pos (digits2_pos p))) as [H|H]; [exact H |].
    exfalso. assert (2 ^ Z.pos (digits2_pos p) <= 2 ^ 1024)
      by (apply Z.pow_le_mono_r; lia). lia. }
  unfold Py.float_of_int, binary_normalize, binary_round, shl_align.
  unfold fexp at 1, emin, Py.prec at 1 2, Py.emax at 1.
  destruct (Z.max (Z.pos (digits2_pos p) + 0 - 53) (3 - 1024 - 53) - 0)
    as [|q|q] eqn:Hn; try lia.
  unfold binary_round_aux.
  pose proof (shr_fexp_positive p 0 ltac:(lia)) as [Hm1 He1].
  destruct (shr_fexp Py.prec Py.emax (Z.pos p) 0 loc_Exact) as [mrs1 e1].
  cbn [fst snd] in Hm1, He1.
  pose proof (round_nearest_even_ge (shr_m mrs1) (loc_of_shr_record mrs1)) as Hr.
  destruct (round_nearest_even (shr_m mrs1) (loc_of_shr_record mrs1))
    as [|M|M]; try lia.
  pose proof (shr_fexp_positive M e1 ltac:(lia)) as [Hm2 He2].
  destruct (shr_fexp Py.prec Py.emax (Z.pos M) e1 loc_Exact) as [mrs2 e2].
  cbn [fst snd] in Hm2, He2.
  destruct (shr_m mrs2) as [|m2|m2]; try lia.
  unfold Py.emax, Py.prec.
  replace (e2 <=? 1024 - 53) with false by (symmetry; apply Z.leb_gt; lia).
  reflexivity.
Qed.

(** X14: with a float amount, [decimals] from 309 on always raises
    [OverflowError], whatever the amount (even 0.0): [10 ** decimals] is
    then too large to be turned into a float. *)
Theorem float_amount_large_decimals (x : spec_float) (d : N) :
  (309 <= d)%N ->
  tokens_to_wei (Py.Float x) d = Py.Raise Py.OverflowError.
Proof.
  intros Hd. unfold tokens_to_wei, Py.pow10. cbn [Py.mul].
  rewrite float_of_int_overflow; [reflexivity |].
  transitivity (10 ^ 309); [vm_compute; discriminate |].
  apply Z.pow_le_mono_r; lia.
Qed.

Lemma float_amount_large_decimals_witness :
  (309 <= 309)%N /\
  tokens_to_wei (Py.Float (S754_zero false)) 309 = Py.Raise Py.OverflowError.
Proof.
  split; [reflexivity |].
  apply (float_amount_large_decimals (S754_zero false) 309). reflexivity.
Defined.

Lemma forallb_seqZ (f : Z -> bool) (lo len : Z) :
  forallb f (seqZ lo len) = true ->
  forall z : Z, lo <= z < lo + len -> f z = true.
Proof.
  intros Hall z Hz.
  apply (proj1 (forallb_forall _ _) Hall), list_elem_of_In, elem_of_seqZ, Hz.
Qed.

(** X15: one token given as the float 1.0 converts to exactly
    [10^decimals] for every [decimals] up to 22; from 23 to 308 it
    converts to a different integer (the float nearest to [10^decimals],
    e.g. 99999999999999991611392 for 23). *)
Theorem one_token_by_decimals (d : N) :
  ((d <= 22)%N -> tokens_to_wei one_token d = Py.Ok (10 ^ Z.of_N d)) /\
  ((23 <= d <= 308)%N ->
   exists wei : Z,
     tokens_to_wei one_token d = Py.Ok wei /\ wei <> 10 ^ Z.of_N d) /\
  tokens_to_wei one_token 23 = Py.Ok 99999999999999991611392.
Proof.
  split; [| split].
  - intros Hd.
    assert (H : one_token_exact (Z.of_N d) = true).
    { apply (forallb_seqZ _ 0 23); [vm_compute; reflexivity | lia]. }
    unfold one_token_exact in H. rewrite N2Z.id in H.
    destruct (tokens_to_wei one_token d) as [wei|e]; [| discriminate].
    apply Z.eqb_eq in H. now subst.
  - intros Hd.
    assert (H : one_token_rounded (Z.of_N d) = true).
    { apply (forallb_seqZ _ 23 286); [vm_compute; reflexivity | lia]. }
    unfold one_token_rounded in H. rewrite N2Z.id in H.
    destruct (tokens_to_wei one_token d) as [wei|e]; [| discriminate].
    exists wei. split; [reflexivity |].
    apply negb_true_iff, Z.eqb_neq in H. exact H.
  - vm_compute. reflexivity.
Qed.

(** *** The output file and the count *)

(** X16: after a run, failed or not, the files are those that were there
    before, together with the output file: none is removed. *)
Theorem files_after_run (rs : list recipient) (w : world) :
  dom (files (snd (generate_csv rs w))) = {[ output_file ]} ∪ dom (files w).
Proof. rewrite generate_csv_outcome. apply dom_insert_L. Qed.

(** X17: when the run returns normally, the number of recipients it
    prints is the number of data rows it wrote. *)
Theorem printed_count_is_row_count (rs : list recipient) (w : world) :
  fst (generate_csv rs w) = Py.Ok tt ->
  exists (rows : list (string * Z)) (totals : list (list part)),
    written rs w = Some (header_text +:+ rows_text rows) /\
    console (snd (generate_csv rs w)) =
      (console w ++
         [Text "Generated airdrop_distribution.csv with ";
          Text (digits (Z.of_nat (length rows))); Text " recipients"]
         :: totals)%list.
Proof.
  unfold written. rewrite !generate_csv_outcome. cbn [fst snd files console].
  rewrite lookup_insert_eq. intros Hok.
  destruct (outcome_ok_inv _ Hok)
    as (t & tw & h & Hrows & _ & _ & _ & _ & _ & Hout).
  exists (fst (convert_rows rs)),
         [total_tokens_line h; total_wei_line (digits tw)].
  rewrite Hout, (convert_rows_all _ Hrows). split; reflexivity.
Qed.

Lemma printed_count_is_row_count_witness :
  fst (generate_csv airdrop_data empty_world) = Py.Ok tt /\
  exists (rows : list (string * Z)) (totals : list (list part)),
    written airdrop_data empty_world = Some (header_text +:+ rows_text rows) /\
    console (snd (generate_csv airdrop_data empty_world)) =
      (console empty_world ++
         [Text "Generated airdrop_distribution.csv with ";
          Text (digits (Z.of_nat (length rows))); Text " recipients"]
         :: totals)%list.
Proof.
  split; [vm_compute; reflexivity |].
  apply (printed_count_is_row_count airdrop_data empty_world).
  vm_compute. reflexivity.
Defined.

(** *** The limit on digits *)

(** X18: with integer amounts whose rows can be written and whose sum can
    be printed, but whose base-unit total has more than 4300 digits, the
    run raises [ValueError] on the last line: the file is complete and two
    lines are printed, the count and the human-readable total. *)
Theorem total_with_too_many_digits (l : list (string * Z)) (w : world) :
  Forall (fun row => printable (snd row)) (scaled_rows l) ->
  printable (Z.of_nat (length l)) ->
  printable (total (map snd l)) ->
  ~ printable (total (map snd (scaled_rows l))) ->
  generate_csv (int_recipients l) w =
    (Py.Raise Py.ValueError,
     World (<[output_file := header_text +:+ rows_text (scaled_rows l)]> (files w))
           (console w ++
              [[Text "Generated airdrop_distribution.csv with ";
                Text (digits (Z.of_nat (length l))); Text " recipients"];
               [Text "Total tokens to distribute: ";
                Text (grouped (total (map snd l))); Text " AIV"]])).
Proof.
  intros Hrows Hcount Htokens Hwei. rewrite generate_csv_outcome.
  unfold outcome, summary.
  rewrite (convert_rows_int _ Hrows), sum_int_recipients, tokens_to_wei_int.
  assert (Hlen : length (int_recipients l) = length l)
    by (unfold int_recipients; apply length_map).
  rewrite Hlen, (str_printable _ Hcount).
  cbn [format_comma]. rewrite (format_int_comma_printable _ Htokens).
  cbn [Py.map]. rewrite <- total_scaled, (str_not_printable _ Hwei).
  reflexivity.
Qed.

Lemma total_with_too_many_digits_witness :
  let l := [("0x742e8D0aED6e21E2F8daBF7c8D9b3D96aF61f5a4", 5 * (str_limit / 10 ^ 19));
            ("0x1234567890123456789012345678901234567890", 5 * (str_limit / 10 ^ 19))] in
  Forall (fun row => printable (snd row)) (scaled_rows l) /\
  printable (Z.of_nat (length l)) /\
  printable (total (map snd l)) /\
  ~ printable (total (map snd (scaled_rows l))) /\
  fst (generate_csv (int_recipients l) empty_world) = Py.Raise Py.ValueError.
Proof.
  cbv zeta.
  assert (H1 : Forall (fun row : string * Z => printable (snd row))
                 (scaled_rows
                    [("0x742e8D0aED6e21E2F8daBF7c8D9b3D96aF61f5a4", 5 * (str_limit / 10 ^ 19));
                     ("0x1234567890123456789012345678901234567890", 5 * (str_limit / 10 ^ 19))])).
  { repeat (constructor; [vm_compute; reflexivity |]). constructor. }
  assert (H2 : printable (Z.of_nat 2)) by (vm_compute; reflexivity).
  assert (H3 : printable (total (map snd
                    [("0x742e8D0aED6e21E2F8daBF7c8D9b3D96aF61f5a4", 5 * (str_limit / 10 ^ 19));
                     ("0x1234567890123456789012345678901234567890", 5 * (str_limit / 10 ^ 19))])))
    by (vm_compute; reflexivity).
  assert (H4 : ~ printable (total (map snd (scaled_rows
                    [("0x742e8D0aED6e21E2F8daBF7c8D9b3D96aF61f5a4", 5 * (str_limit / 10 ^ 19));
                     ("0x1234567890123456789012345678901234567890", 5 * (str_limit / 10 ^ 19))]))))
    by (vm_compute; discriminate).
  split; [exact H1 |]. split; [exact H2 |]. split; [exact H3 |].
  split; [exact H4 |].
  exact (f_equal fst
           (total_with_too_many_digits
              [("0x742e8D0aED6e21E2F8daBF7c8D9b3D96aF61f5a4", 5 * (str_limit / 10 ^ 19));
               ("0x1234567890123456789012345678901234567890", 5 * (str_limit / 10 ^ 19))]
              empty_world H1 H2 H3 H4)).
Defined.
